(** * collection_json: a shallow embedding of the Collection+JSON object model

    The development follows [collection_json.py]: the value universe is the
    one [json.loads] produces, every class is a record, every constructor
    and method is a function, and raising is a value of the [result]
    monad.  Theorems come after all definitions. *)

From Stdlib Require Import String Ascii ZArith List Bool Lia.
Import ListNotations.
Local Open Scope string_scope.
Local Open Scope Z_scope.
Local Open Scope list_scope.

Set Implicit Arguments.

(* ===================================================================== *)
(** ** Python values *)
(* ===================================================================== *)

(** What [json.loads] returns, and what the entities keep in their scalar
    fields: [None], [bool], [int], [str], [list] and [dict].  A dict is an
    insertion-ordered association list, as in Python; JSON numbers are
    integers here (floats are outside this model). *)
#[warnings="-register-all"]
Inductive pyval : Type :=
| PNone
| PBool (b : bool)
| PInt (n : Z)
| PStr (s : string)
| PList (l : list pyval)
| PDict (d : list (string * pyval)).

Definition pydict : Type := list (string * pyval).

(** [bool(v)]: the truth value Python gives to [v] in an [if]. *)
Definition truthy (v : pyval) : bool :=
  match v with
  | PNone => false
  | PBool b => b
  | PInt n => negb (n =? 0)
  | PStr s => negb (s =? "")%string
  | PList l => match l with [] => false | _ :: _ => true end
  | PDict d => match d with [] => false | _ :: _ => true end
  end.

(** [v is None] *)
Definition is_None (v : pyval) : bool :=
  match v with PNone => true | _ => false end.

(** [isinstance(v, dict)] *)
Definition is_dict (v : pyval) : bool :=
  match v with PDict _ => true | _ => false end.

(* --------------------------------------------------------------------- *)
(** *** Dictionaries *)

(** [d.get(k)] on the entries of a dict; [None] when the key is missing. *)
Fixpoint dict_get (k : string) (d : pydict) : option pyval :=
  match d with
  | [] => None
  | (k', v) :: d' => if (k =? k')%string then Some v else dict_get k d'
  end.

(** [d[k] = v]: an existing key keeps its place, a new key goes last. *)
Fixpoint dict_set (d : pydict) (k : string) (v : pyval) : pydict :=
  match d with
  | [] => [(k, v)]
  | (k', v') :: d' =>
      if (k =? k')%string then (k', v) :: d' else (k', v') :: dict_set d' k v
  end.

(** [d.update(e)] *)
Definition dict_update (d e : pydict) : pydict :=
  fold_left (fun acc kv => dict_set acc (fst kv) (snd kv)) e d.

(* --------------------------------------------------------------------- *)
(** *** Equality of values: Python's [==] *)

Fixpoint py_eqb (a b : pyval) {struct a} : bool :=
  match a, b with
  | PNone, PNone => true
  | PBool x, PBool y => Bool.eqb x y
  | PBool x, PInt y => Z.b2z x =? y
  | PInt x, PBool y => x =? Z.b2z y
  | PInt x, PInt y => x =? y
  | PStr x, PStr y => (x =? y)%string
  | PList x, PList y =>
      (fix all2 (l1 l2 : list pyval) {struct l1} : bool :=
         match l1, l2 with
         | [], [] => true
         | u :: l1', w :: l2' => py_eqb u w && all2 l1' l2'
         | _, _ => false
         end) x y
  | PDict x, PDict y =>
      Nat.eqb (length x) (length y) &&
      (fix each (l1 : pydict) {struct l1} : bool :=
         match l1 with
         | [] => true
         | (k, u) :: l1' =>
             match dict_get k y with
             | Some w => py_eqb u w
             | None => false
             end && each l1'
         end) x
  | _, _ => false
  end.

(* ===================================================================== *)
(** ** Exceptions *)
(* ===================================================================== *)

(** The classes of the module; [cls_name] is [cls.__name__]. *)
Inductive cls : Type :=
| CCollection | CError | CTemplate | CItem | CData | CQuery | CLink.

Definition cls_name (c : cls) : string :=
  match c with
  | CCollection => "Collection"
  | CError => "Error"
  | CTemplate => "Template"
  | CItem => "Item"
  | CData => "Data"
  | CQuery => "Query"
  | CLink => "Link"
  end.

Definition cls_eqb (a b : cls) : bool := (cls_name a =? cls_name b)%string.

(** The argument of an exception.  Formatted messages keep the format's
    arguments instead of the rendered text; the last six are raised by
    the interpreter, not by the module. *)
Inductive message : Type :=
| NoMessage
| Msg (text : string)
| InvalidValueFor (class_name : string) (item : pyval)
    (* "Invalid value for %s: %r" *)
| InvalidValueExpected (value : pyval) (class_name : string)
    (* "Invalid value '%s', expected dict or '%s'" *)
| UnexpectedKeyword (callee : string) (key : string)
| MultipleValues (callee : string) (param : string)
| MissingArgument (callee : string) (param : string)
| NotIterable (v : pyval)
| NotAMapping (v : pyval)
| NoAttribute (v : pyval) (attr : string).

Inductive exn : Type :=
| ValueError (m : message)
| TypeError (m : message)
| AttributeError (m : message)
| StopIteration.

Inductive result (A : Type) : Type :=
| Ok (x : A)
| Raise (e : exn).

Arguments Ok {A} x.
Arguments Raise {A} e.

Definition bind {A B : Type} (r : result A) (k : A -> result B) : result B :=
  match r with
  | Ok x => k x
  | Raise e => Raise e
  end.

Notation "x <- r ;; k" := (bind r (fun x => k))
  (at level 61, r at next level, right associativity).

Definition is_TypeError {A} (r : result A) : bool :=
  match r with Raise (TypeError _) => true | _ => false end.

Definition is_ValueError {A} (r : result A) : bool :=
  match r with Raise (ValueError _) => true | _ => false end.

Definition is_AttributeError {A} (r : result A) : bool :=
  match r with Raise (AttributeError _) => true | _ => false end.

(* ===================================================================== *)
(** ** Calling a constructor with [**kwargs] *)
(* ===================================================================== *)

(** A key the call [callee( **kw )] cannot bind, [params] being the
    parameters of [__init__] after [self]: [self] is bound already, by
    position, and any other key has to be a parameter. *)
Definition unbindable (params : list string) (key : string) : bool :=
  (key =? "self")%string || negb (existsb (String.eqb key) params).

(** Binding the keys of [kw], in their order: the first key that cannot
    be bound ends the call in a [TypeError], for [self] the one of an
    argument given twice, for another key the one of an unexpected
    keyword. *)
Definition check_keywords (callee : string) (params : list string)
    (kw : pydict) : result unit :=
  match find (fun kv => unbindable params (fst kv)) kw with
  | Some (k, _) =>
      if (k =? "self")%string
      then Raise (TypeError (MultipleValues callee k))
      else Raise (TypeError (UnexpectedKeyword callee k))
  | None => Ok tt
  end.

(** A parameter without default. *)
Definition required (callee : string) (param : string) (kw : pydict)
    : result pyval :=
  match dict_get param kw with
  | Some v => Ok v
  | None => Raise (TypeError (MissingArgument callee param))
  end.

(** A parameter with default [None]. *)
Definition optional (param : string) (kw : pydict) : pyval :=
  match dict_get param kw with
  | Some v => v
  | None => PNone
  end.

(** A [PStr] holds the UTF-8 bytes of the text.  A byte [10xxxxxx]
    continues the character begun before it. *)
Definition is_continuation (c : ascii) : bool :=
  match c with
  | Ascii _ _ _ _ _ _ false true => true
  | _ => false
  end.

Definition continued (s : string) : bool :=
  match s with
  | String c _ => is_continuation c
  | EmptyString => false
  end.

(** The characters of a text, each with all of its bytes. *)
Fixpoint characters (s : string) : list string :=
  match s with
  | EmptyString => []
  | String c s' =>
      let rest := characters s' in
      if continued s' then
        match rest with
        | ch :: rest' => String c ch :: rest'
        | [] => [String c EmptyString]
        end
      else String c EmptyString :: rest
  end.

(** [for item in v]: the elements a JSON-like value yields (the keys of
    a dict, the characters of a text), or the interpreter's
    [TypeError]. *)
Definition py_iter (v : pyval) : result (list pyval) :=
  match v with
  | PList l => Ok l
  | PDict d => Ok (map (fun kv => PStr (fst kv)) d)
  | PStr s => Ok (map PStr (characters s))
  | _ => Raise (TypeError (NotIterable v))
  end.

(** What the normal attribute lookup finds on every instance: the
    attributes of [object] (CPython 3.11), and those of a class that
    defines [__eq__] in its body, as [ComparableObject] does. *)
Definition object_attributes : list string :=
  ["__class__"; "__delattr__"; "__dir__"; "__doc__"; "__eq__"; "__format__";
   "__ge__"; "__getattribute__"; "__getstate__"; "__gt__"; "__hash__";
   "__init__"; "__init_subclass__"; "__le__"; "__lt__"; "__ne__"; "__new__";
   "__reduce__"; "__reduce_ex__"; "__repr__"; "__setattr__"; "__sizeof__";
   "__str__"; "__subclasshook__"].

Definition ComparableObject_attributes : list string :=
  ["__eq__"; "__ne__"; "__hash__"; "__dict__"; "__weakref__"; "__module__";
   "__doc__"].

(** What [list] adds to [object] (CPython 3.11). *)
Definition list_attributes : list string :=
  ["__add__"; "__class_getitem__"; "__contains__"; "__delitem__";
   "__getitem__"; "__iadd__"; "__imul__"; "__iter__"; "__len__"; "__mul__";
   "__reversed__"; "__rmul__"; "__setitem__";
   "append"; "clear"; "copy"; "count"; "extend"; "index"; "insert";
   "pop"; "remove"; "reverse"; "sort"].

(* ===================================================================== *)
(** ** Data *)
(* ===================================================================== *)

Module Data.

Record t : Type := mk { name : pyval; value : pyval; prompt : pyval }.

(** [Data.__init__(self, name, value=None, prompt=None)] *)
Definition __init__ (name value prompt : pyval) : t :=
  {| name := name; value := value; prompt := prompt |}.

(** [Data( **kw )] *)
Definition new (kw : pydict) : result t :=
  _ <- check_keywords "Data" ["name"; "value"; "prompt"] kw ;;
  name <- required "Data" "name" kw ;;
  Ok (__init__ name (optional "value" kw) (optional "prompt" kw)).

(** [Data.to_dict]; [entries] is the local [output]. *)
Definition entries (self : t) : pydict :=
  let output := [("name", name self)] in
  let output :=
    if negb (is_None (value self))
    then dict_set output "value" (value self) else output in
  let output :=
    if negb (is_None (prompt self))
    then dict_set output "prompt" (prompt self) else output in
  output.

Definition to_dict (self : t) : pyval := PDict (entries self).

(** [ComparableObject.__eq__] between two [Data]: the instance
    dictionaries are compared with [==]. *)
Definition __eq__ (self other : t) : bool :=
  py_eqb (name self) (name other) &&
  py_eqb (value self) (value other) &&
  py_eqb (prompt self) (prompt other).

End Data.

(* ===================================================================== *)
(** ** Attributes and the interfaces the array relies on *)
(* ===================================================================== *)

(** What attribute access on an array can give back: the single match,
    the list of matches, or a member of the array object itself (a method
    or an instance field found by the normal lookup). *)
Inductive lookup (T : Type) : Type :=
| One (x : T)
| Many (l : list T)
| Member (name : string).

Arguments One {T} x.
Arguments Many {T} l.
Arguments Member {T} name.

(** The value of [getattr(item, 'name', None)] and of
    [getattr(item, 'rel', None)]: a field of the element (or the default
    [None]), or what an [Item] delegates to its data array. *)
Inductive attribute : Type :=
| Scalar (v : pyval)
| Delegated (l : lookup Data.t).

(** [a == v] for a search argument [v].  A [Data] is never equal to a
    value of another type, a bound method neither, and two lists are
    equal only element by element. *)
Definition attribute_eqb (a : attribute) (v : pyval) : bool :=
  match a with
  | Scalar u => py_eqb u v
  | Delegated (One _) => false
  | Delegated (Many l) =>
      match l, v with
      | [], PList [] => true
      | _, _ => false
      end
  | Delegated (Member _) => false
  end.

(** A class of the module: its class object, the call [cls( **kwargs )],
    [to_dict] and [__eq__]. *)
Class Entity (T : Type) : Type := {
  class_of : cls;
  construct : pydict -> result T;
  to_dict : T -> pyval;
  equal : T -> T -> bool
}.

(** What [Array._matches] reads from an element. *)
Class Named (T : Type) : Type := {
  attr_name : T -> attribute;   (* getattr(item, 'name', None) *)
  attr_rel : T -> attribute     (* getattr(item, 'rel', None) *)
}.

#[export] Instance Data_Entity : Entity Data.t := {|
  class_of := CData;
  construct := Data.new;
  to_dict := Data.to_dict;
  equal := Data.__eq__
|}.

(** [Data] has a [name] field and no [rel]. *)
#[export] Instance Data_Named : Named Data.t := {|
  attr_name := fun d => Scalar (Data.name d);
  attr_rel := fun _ => Scalar PNone
|}.

(* ===================================================================== *)
(** ** Array *)
(* ===================================================================== *)

(** An element handed to [Array]: an instance of the item class, or any
    other value. *)
Inductive item_arg (T : Type) : Type :=
| Instance (x : T)
| Raw (v : pyval).

Arguments Instance {T} x.
Arguments Raw {T} v.

Module Array.

(** [class Array(ComparableObject, list)]: the two instance fields and
    the list contents. *)
Record t (T : Type) : Type :=
  mk { item_class : cls; collection_name : string; elems : list T }.

Arguments mk {T} item_class collection_name elems.

Section Methods.
Context {T : Type} `{Entity T} `{Named T}.

(** [Array._build_items] *)
Fixpoint _build_items (item_class : cls) (items : list (item_arg T))
    : result (list T) :=
  match items with
  | [] => Ok []
  | item :: rest =>
      x <- match item with
           | Instance x => Ok x
           | Raw (PDict d) => construct d
           | Raw v =>
               Raise (ValueError (InvalidValueFor (cls_name item_class) v))
           end ;;
      result <- _build_items item_class rest ;;
      Ok (x :: result)
  end.

(** [Array.__init__]; the item class is the one of [T]. *)
Definition __init__ (collection_name : string)
    (items : list (item_arg T)) : result (t T) :=
  result <- _build_items class_of items ;;
  Ok (mk class_of collection_name result).

(** [bool(array)]: a list is true when it is not empty. *)
Definition __bool__ (self : t T) : bool :=
  match elems self with [] => false | _ :: _ => true end.

(** [Array.__eq__]: same instance fields and equal list contents. *)
Definition __eq__ (self other : t T) : bool :=
  (cls_eqb (item_class self) (item_class other) &&
   (collection_name self =? collection_name other)%string) &&
  (fix all2 (l1 l2 : list T) {struct l1} : bool :=
     match l1, l2 with
     | [], [] => true
     | x :: l1', y :: l2' => equal x y && all2 l1' l2'
     | _, _ => false
     end) (elems self) (elems other).

(** The test in the loop body of [Array._matches]: does the element
    with these [name] and [rel] get yielded? *)
Definition yields (name rel : pyval) (item_name item_rel : attribute)
    : bool :=
  if negb (is_None name) && attribute_eqb item_name name && is_None rel
  then true                       (* only searching by name *)
  else if negb (is_None rel) && attribute_eqb item_rel rel && is_None name
  then true                       (* only searching by rel *)
  else if attribute_eqb item_name name && attribute_eqb item_rel rel
  then true                       (* searching by name and rel *)
  else false.

(** [Array._matches]: the elements the generator yields, in order. *)
Definition _matches (self : t T) (name rel : pyval) : list T :=
  filter (fun item => yields name rel (attr_name item) (attr_rel item))
         (elems self).

(** [Array.find] *)
Definition find (self : t T) (name rel : pyval) : list T :=
  _matches self name rel.

(** [next(generator)] *)
Definition next (yielded : list T) : result T :=
  match yielded with
  | x :: _ => Ok x
  | [] => Raise StopIteration
  end.

(** [Array.get] *)
Definition get (self : t T) (name rel : pyval) : result T :=
  match next (_matches self name rel) with
  | Raise StopIteration => Raise (ValueError (Msg "No matching item found."))
  | r => r
  end.

(** [Array.__getattr__], called when the normal lookup of [name] on
    the array fails. *)
Definition __getattr__ (self : t T) (name : string) : result (lookup T) :=
  let results := find self (PStr name) PNone in
  match results with
  | [] => Raise (AttributeError NoMessage)
  | [x] => Ok (One x)
  | _ => Ok (Many results)
  end.

(** [Array.to_dict] *)
Definition entries (self : t T) : pydict :=
  [(collection_name self, PList (map to_dict (elems self)))].

Definition to_dict (self : t T) : pyval := PDict (entries self).

End Methods.

(** The names the normal attribute lookup resolves on an [Array]
    instance: its two instance fields, what the body of [class Array]
    defines, and what its bases [ComparableObject], [list] and [object]
    define. *)
Definition members : list string :=
  ["item_class"; "collection_name"] ++
  ["__init__"; "_build_items"; "__eq__"; "__ne__"; "__getattr__";
   "_matches"; "find"; "get"; "to_dict"] ++
  ComparableObject_attributes ++ list_attributes ++ object_attributes.

(** [getattr(array, name)]: the normal lookup first, [__getattr__] when
    it fails. *)
Definition getattr {T : Type} `{Named T} (self : t T) (name : string)
    : result (lookup T) :=
  if existsb (String.eqb name) members
  then Ok (Member name)
  else __getattr__ self name.

End Array.

(* ===================================================================== *)
(** ** The two coercion helpers *)
(* ===================================================================== *)

(** The argument given for an array field: a JSON-like value (what
    [json.loads] hands over, [None] included), or a Python list whose
    elements may already be instances. *)
Inductive iterable (T : Type) : Type :=
| Values (v : pyval)
| Items (l : list (item_arg T)).

Arguments Values {T} v.
Arguments Items {T} l.

(** The argument given for an entity field: an instance, or any other
    value. *)
Inductive argument (T : Type) : Type :=
| Given (x : T)
| Value (v : pyval).

Arguments Given {T} x.
Arguments Value {T} v.

(** [_from_dict_or_value(value, cls)]; the result is [None] or an
    instance. *)
Definition _from_dict_or_value {T : Type} `{Entity T} (value : argument T)
    : result (option T) :=
  match value with
  | Given x => Ok (Some x)
  | Value PNone => Ok None
  | Value (PDict d) => x <- construct d ;; Ok (Some x)
  | Value v => Raise (TypeError (InvalidValueExpected v (cls_name class_of)))
  end.

(** [_from_iterable_to_array(cls, name, iterable=None)] *)
Definition _from_iterable_to_array {T : Type} `{Entity T} (name : string)
    (iterable : iterable T) : result (Array.t T) :=
  match iterable with
  | Values PNone => Array.__init__ name []
  | Values v => items <- py_iter v ;; Array.__init__ name (map Raw items)
  | Items l => Array.__init__ name l
  end.

(** [getattr(item, attr, None)] on the outcome of the lookup: the default
    replaces a failed lookup. *)
Definition getattr_or_None (r : result (lookup Data.t)) : attribute :=
  match r with
  | Ok l => Delegated l
  | Raise _ => Scalar PNone
  end.

(** [callee( **kwargs )]: the value after [**] has to be a mapping. *)
Definition call_with {T : Type} (callee : pydict -> result T) (kwargs : pyval)
    : result T :=
  match kwargs with
  | PDict d => callee d
  | _ => Raise (TypeError (NotAMapping kwargs))
  end.

(** [data.get(key)] on a decoded document. *)
Definition py_get (data : pyval) (key : string) : result pyval :=
  match data with
  | PDict d => Ok (optional key d)
  | _ => Raise (AttributeError (NoAttribute data "get"))
  end.

(* ===================================================================== *)
(** ** Link *)
(* ===================================================================== *)

Module Link.

Record t : Type :=
  mk { href : pyval; rel : pyval; name : pyval; render : pyval;
       prompt : pyval }.

(** [Link.__init__(self, href, rel, name=None, render=None, prompt=None)] *)
Definition __init__ (href rel name render prompt : pyval) : t :=
  {| href := href; rel := rel; name := name; render := render;
     prompt := prompt |}.

Definition new (kw : pydict) : result t :=
  _ <- check_keywords "Link" ["href"; "rel"; "name"; "render"; "prompt"] kw ;;
  href <- required "Link" "href" kw ;;
  rel <- required "Link" "rel" kw ;;
  Ok (__init__ href rel (optional "name" kw) (optional "render" kw)
               (optional "prompt" kw)).

(** [Link.to_dict] *)
Definition entries (self : t) : pydict :=
  let output := [("href", href self); ("rel", rel self)] in
  let output :=
    if negb (is_None (name self))
    then dict_set output "name" (name self) else output in
  let output :=
    if negb (is_None (render self))
    then dict_set output "render" (render self) else output in
  let output :=
    if negb (is_None (prompt self))
    then dict_set output "prompt" (prompt self) else output in
  output.

Definition to_dict (self : t) : pyval := PDict (entries self).

Definition __eq__ (self other : t) : bool :=
  py_eqb (href self) (href other) &&
  py_eqb (rel self) (rel other) &&
  py_eqb (name self) (name other) &&
  py_eqb (render self) (render other) &&
  py_eqb (prompt self) (prompt other).

End Link.

#[export] Instance Link_Entity : Entity Link.t := {|
  class_of := CLink;
  construct := Link.new;
  to_dict := Link.to_dict;
  equal := Link.__eq__
|}.

#[export] Instance Link_Named : Named Link.t := {|
  attr_name := fun l => Scalar (Link.name l);
  attr_rel := fun l => Scalar (Link.rel l)
|}.

(* ===================================================================== *)
(** ** Query *)
(* ===================================================================== *)

Module Query.

Record t : Type :=
  mk { href : pyval; rel : pyval; name : pyval; prompt : pyval;
       data : Array.t Data.t }.

(** [Query.__init__(self, href, rel, name=None, prompt=None, data=None)];
    the [data] setter builds the array. *)
Definition __init__ (href rel name prompt : pyval)
    (data : iterable Data.t) : result t :=
  data <- _from_iterable_to_array "data" data ;;
  Ok {| href := href; rel := rel; name := name; prompt := prompt;
        data := data |}.

Definition new (kw : pydict) : result t :=
  _ <- check_keywords "Query" ["href"; "rel"; "name"; "prompt"; "data"] kw ;;
  href <- required "Query" "href" kw ;;
  rel <- required "Query" "rel" kw ;;
  __init__ href rel (optional "name" kw) (optional "prompt" kw)
           (Values (optional "data" kw)).

(** [Query.to_dict] *)
Definition entries (self : t) : pydict :=
  let output := [("href", href self); ("rel", rel self)] in
  let output :=
    if negb (is_None (name self))
    then dict_set output "name" (name self) else output in
  let output :=
    if negb (is_None (prompt self))
    then dict_set output "prompt" (prompt self) else output in
  let output :=
    if negb (Nat.eqb (length (Array.elems (data self))) 0)
    then dict_update output (Array.entries (data self)) else output in
  output.

Definition to_dict (self : t) : pyval := PDict (entries self).

Definition __eq__ (self other : t) : bool :=
  py_eqb (href self) (href other) &&
  py_eqb (rel self) (rel other) &&
  py_eqb (name self) (name other) &&
  py_eqb (prompt self) (prompt other) &&
  Array.__eq__ (data self) (data other).

End Query.

#[export] Instance Query_Entity : Entity Query.t := {|
  class_of := CQuery;
  construct := Query.new;
  to_dict := Query.to_dict;
  equal := Query.__eq__
|}.

#[export] Instance Query_Named : Named Query.t := {|
  attr_name := fun q => Scalar (Query.name q);
  attr_rel := fun q => Scalar (Query.rel q)
|}.

(* ===================================================================== *)
(** ** Item *)
(* ===================================================================== *)

Module Item.

Record t : Type :=
  mk { href : pyval; data : Array.t Data.t; links : Array.t Link.t }.

(** [Item.__init__(self, href=None, data=None, links=None)] *)
Definition __init__ (href : pyval) (data : iterable Data.t)
    (links : iterable Link.t) : result t :=
  data <- _from_iterable_to_array "data" data ;;
  links <- _from_iterable_to_array "links" links ;;
  Ok {| href := href; data := data; links := links |}.

Definition new (kw : pydict) : result t :=
  _ <- check_keywords "Item" ["href"; "data"; "links"] kw ;;
  __init__ (optional "href" kw) (Values (optional "data" kw))
           (Values (optional "links" kw)).

(** [Item.__getattr__], called when [name] is no attribute of the item
    itself. *)
Definition __getattr__ (self : t) (name : string) : result (lookup Data.t) :=
  Array.getattr (data self) name.

(** The names the normal attribute lookup resolves on an [Item]: its
    instance fields ([href], and the two private fields the setters
    write), what the body of [class Item] defines, and what its bases
    define. *)
Definition members : list string :=
  ["href"; "_Item__data"; "_Item__links"] ++
  ["__init__"; "__repr__"; "__getattr__"; "data"; "links"; "properties";
   "to_dict"] ++
  ComparableObject_attributes ++ object_attributes.

(** [getattr(item, name)] *)
Definition getattr (self : t) (name : string) : result (lookup Data.t) :=
  if existsb (String.eqb name) members
  then Ok (Member name)
  else __getattr__ self name.

(** [Item.properties] *)
Definition properties (self : t) : list pyval :=
  map Data.name (Array.elems (data self)).

(** [Item.to_dict] *)
Definition entries (self : t) : pydict :=
  let output := [] in
  let output :=
    if truthy (href self) then dict_set output "href" (href self)
    else output in
  let output :=
    if Array.__bool__ (data self)
    then dict_update output (Array.entries (data self)) else output in
  let output :=
    if Array.__bool__ (links self)
    then dict_update output (Array.entries (links self)) else output in
  output.

Definition to_dict (self : t) : pyval := PDict (entries self).

Definition __eq__ (self other : t) : bool :=
  py_eqb (href self) (href other) &&
  Array.__eq__ (data self) (data other) &&
  Array.__eq__ (links self) (links other).

End Item.

#[export] Instance Item_Entity : Entity Item.t := {|
  class_of := CItem;
  construct := Item.new;
  to_dict := Item.to_dict;
  equal := Item.__eq__
|}.

(** [Item] defines neither [name] nor [rel]: both lookups end in
    [Item.__getattr__]. *)
#[export] Instance Item_Named : Named Item.t := {|
  attr_name := fun i => getattr_or_None (Item.getattr i "name");
  attr_rel := fun i => getattr_or_None (Item.getattr i "rel")
|}.

(* ===================================================================== *)
(** ** Error *)
(* ===================================================================== *)

Module Error.

Record t : Type := mk { code : pyval; message : pyval; title : pyval }.

(** [Error.__init__(self, code=None, message=None, title=None)] *)
Definition __init__ (code message title : pyval) : t :=
  {| code := code; message := message; title := title |}.

Definition new (kw : pydict) : result t :=
  _ <- check_keywords "Error" ["code"; "message"; "title"] kw ;;
  Ok (__init__ (optional "code" kw) (optional "message" kw)
               (optional "title" kw)).

(** [Error.to_dict]: [fields] is [output['error']], [entries] is
    [output]. *)
Definition fields (self : t) : pydict :=
  let error := [] in
  let error :=
    if truthy (code self) then dict_set error "code" (code self)
    else error in
  let error :=
    if truthy (message self) then dict_set error "message" (message self)
    else error in
  let error :=
    if truthy (title self) then dict_set error "title" (title self)
    else error in
  error.

Definition entries (self : t) : pydict := [("error", PDict (fields self))].

Definition to_dict (self : t) : pyval := PDict (entries self).

Definition __eq__ (self other : t) : bool :=
  py_eqb (code self) (code other) &&
  py_eqb (message self) (message other) &&
  py_eqb (title self) (title other).

End Error.

#[export] Instance Error_Entity : Entity Error.t := {|
  class_of := CError;
  construct := Error.new;
  to_dict := Error.to_dict;
  equal := Error.__eq__
|}.

(* ===================================================================== *)
(** ** Template *)
(* ===================================================================== *)

Module Template.

Record t : Type := mk { data : Array.t Data.t }.

(** [Template.__init__(self, data=None)] *)
Definition __init__ (data : iterable Data.t) : result t :=
  data <- _from_iterable_to_array "data" data ;;
  Ok {| data := data |}.

Definition new (kw : pydict) : result t :=
  _ <- check_keywords "Template" ["data"] kw ;;
  __init__ (Values (optional "data" kw)).

(** [Template.__getattr__], called when [name] is no attribute of the
    template itself. *)
Definition __getattr__ (self : t) (name : string) : result (lookup Data.t) :=
  Array.getattr (data self) name.

(** The names the normal attribute lookup resolves on a [Template]: its
    private instance field, what the body of [class Template] defines,
    and what its bases define. *)
Definition members : list string :=
  ["_Template__data"] ++
  ["from_json"; "__init__"; "__repr__"; "__getattr__"; "data"; "properties";
   "to_dict"] ++
  ComparableObject_attributes ++ object_attributes.

(** [getattr(template, name)] *)
Definition getattr (self : t) (name : string) : result (lookup Data.t) :=
  if existsb (String.eqb name) members
  then Ok (Member name)
  else __getattr__ self name.

(** [Template.properties] *)
Definition properties (self : t) : list pyval :=
  map Data.name (Array.elems (data self)).

(** [Template.to_dict] *)
Definition entries (self : t) : pydict :=
  [("template", Array.to_dict (data self))].

Definition to_dict (self : t) : pyval := PDict (entries self).

Definition __eq__ (self other : t) : bool :=
  Array.__eq__ (data self) (data other).

(** [Template.from_json] from the outcome of [json.loads(data)] on: the
    rest of the [try] block, its [except] clause and the constructor
    call. *)
Definition from_loaded (loaded : result pyval) : result t :=
  let attempt :=
    data <- loaded ;;
    kwargs <- py_get data "template" ;;
    if negb (truthy kwargs) then Raise (ValueError NoMessage)
    else Ok kwargs in
  match attempt with
  | Raise (ValueError _) =>
      Raise (ValueError (Msg "Not valid Collection+JSON template data."))
  | Raise e => Raise e
  | Ok kwargs => call_with new kwargs
  end.

Section Decoder.
(** [json.loads]: a decoded value, or a [ValueError]. *)
Variable json_loads : string -> result pyval.

Definition from_json (data : string) : result t :=
  from_loaded (json_loads data).
End Decoder.

End Template.

#[export] Instance Template_Entity : Entity Template.t := {|
  class_of := CTemplate;
  construct := Template.new;
  to_dict := Template.to_dict;
  equal := Template.__eq__
|}.

(* ===================================================================== *)
(** ** Collection *)
(* ===================================================================== *)

(** [==] between two fields holding [None] or an instance. *)
Definition option_eq {T : Type} `{Entity T} (a b : option T) : bool :=
  match a, b with
  | None, None => true
  | Some x, Some y => equal x y
  | _, _ => false
  end.

Module Collection.

Record t : Type :=
  mk { version : pyval; href : pyval;
       error : option Error.t; template : option Template.t;
       items : Array.t Item.t; links : Array.t Link.t;
       queries : Array.t Query.t }.

(** [Collection.__init__(self, href, links=None, items=None,
    queries=None, template=None, error=None, version='1.0')]; the
    setters run in the order of the assignments. *)
Definition __init__ (href : pyval) (links : iterable Link.t)
    (items : iterable Item.t) (queries : iterable Query.t)
    (template : argument Template.t) (error : argument Error.t)
    (version : pyval) : result t :=
  error <- _from_dict_or_value error ;;
  template <- _from_dict_or_value template ;;
  items <- _from_iterable_to_array "items" items ;;
  links <- _from_iterable_to_array "links" links ;;
  queries <- _from_iterable_to_array "queries" queries ;;
  Ok {| version := version; href := href; error := error;
        template := template; items := items; links := links;
        queries := queries |}.

Definition new (kw : pydict) : result t :=
  _ <- check_keywords "Collection"
         ["href"; "links"; "items"; "queries"; "template"; "error";
          "version"] kw ;;
  href <- required "Collection" "href" kw ;;
  __init__ href (Values (optional "links" kw)) (Values (optional "items" kw))
           (Values (optional "queries" kw))
           (Value (optional "template" kw)) (Value (optional "error" kw))
           (match dict_get "version" kw with
            | Some v => v
            | None => PStr "1.0"
            end).

(** [Collection.to_dict]: [fields] is [output['collection']], [entries]
    is [output].  An instance of [Template] or [Error] is true, [None]
    is false. *)
Definition fields (self : t) : pydict :=
  let collection := [("version", version self); ("href", href self)] in
  let collection :=
    if Array.__bool__ (links self)
    then dict_update collection (Array.entries (links self))
    else collection in
  let collection :=
    if Array.__bool__ (items self)
    then dict_update collection (Array.entries (items self))
    else collection in
  let collection :=
    if Array.__bool__ (queries self)
    then dict_update collection (Array.entries (queries self))
    else collection in
  let collection :=
    match template self with
    | Some template => dict_update collection (Template.entries template)
    | None => collection
    end in
  let collection :=
    match error self with
    | Some error => dict_update collection (Error.entries error)
    | None => collection
    end in
  collection.

Definition entries (self : t) : pydict :=
  [("collection", PDict (fields self))].

Definition to_dict (self : t) : pyval := PDict (entries self).

Definition __eq__ (self other : t) : bool :=
  py_eqb (version self) (version other) &&
  py_eqb (href self) (href other) &&
  option_eq (error self) (error other) &&
  option_eq (template self) (template other) &&
  Array.__eq__ (items self) (items other) &&
  Array.__eq__ (links self) (links other) &&
  Array.__eq__ (queries self) (queries other).

(** [Collection.from_json] from the outcome of [json.loads(data)] on:
    the rest of the [try] block, its [except] clause and the
    constructor call. *)
Definition from_loaded (loaded : result pyval) : result t :=
  let attempt :=
    data <- loaded ;;
    kwargs <- py_get data "collection" ;;
    if negb (truthy kwargs) then Raise (ValueError NoMessage)
    else Ok kwargs in
  match attempt with
  | Raise (ValueError _) =>
      Raise (ValueError (Msg "Not a valid Collection+JSON document."))
  | Raise e => Raise e
  | Ok kwargs => call_with new kwargs
  end.

Section Codec.
(** [json.loads]: a decoded value, or a [ValueError]; [json.dumps]. *)
Variable json_loads : string -> result pyval.
Variable json_dumps : pyval -> string.

Definition from_json (data : string) : result t :=
  from_loaded (json_loads data).

(** [Collection.__str__] *)
Definition __str__ (self : t) : string := json_dumps (to_dict self).
End Codec.

End Collection.

#[export] Instance Collection_Entity : Entity Collection.t := {|
  class_of := CCollection;
  construct := Collection.new;
  to_dict := Collection.to_dict;
  equal := Collection.__eq__
|}.

(* ===================================================================== *)
(** ** Notions the statements use *)
(* ===================================================================== *)

(** The value under key [k] of a serialized form, if it has that key. *)
Definition key_of (v : pyval) (k : string) : option pyval :=
  match v with
  | PDict d => dict_get k d
  | _ => None
  end.

(** The entry a field contributes when it is emitted under a condition. *)
Definition emitted (cond : bool) (k : string) (v : pyval) : pydict :=
  if cond then [(k, v)] else [].

(** An attribute that is absent: [None], by default or stored. *)
Definition absent (a : attribute) : bool :=
  match a with
  | Scalar PNone => true
  | _ => false
  end.

(** The element satisfies every criterion that was given: a criterion
    left at [None] is not looked at. *)
Definition satisfies {T : Type} `{Named T} (name rel : pyval) (x : T) : bool :=
  (is_None name || attribute_eqb (attr_name x) name) &&
  (is_None rel || attribute_eqb (attr_rel x) rel).

(** Attribute-style lookup as the specification words it, for the list
    of matches and the outcome [r]: no match is an [AttributeError], a
    single match is returned itself, several matches are returned as the
    list. *)
Definition looked_up {T : Type} (matches : list T) (r : result (lookup T))
    : Prop :=
  (matches = [] -> r = Raise (AttributeError NoMessage)) /\
  (forall x, matches = [x] -> r = Ok (One x)) /\
  ((2 <= length matches)%nat -> r = Ok (Many matches)).

(** The normal lookup on an array does not know the name. *)
Definition unknown_on_array (name : string) : bool :=
  negb (existsb (String.eqb name) Array.members).

(** The normal lookup on an item, on a template, does not know the
    name. *)
Definition unknown_on_item (name : string) : bool :=
  negb (existsb (String.eqb name) Item.members).

Definition unknown_on_template (name : string) : bool :=
  negb (existsb (String.eqb name) Template.members).

(** The instance fields every constructed array has. *)
Definition array_of {T : Type} (c : cls) (name : string) (a : Array.t T)
    : Prop :=
  Array.item_class a = c /\ Array.collection_name a = name.

(** The element serializes to a dict, from which [as_ x] is
    constructed. *)
Definition reconstructed {T : Type} `{Entity T} (as_ : T -> T) (x : T) : Prop :=
  exists d, to_dict x = PDict d /\ construct d = Ok (as_ x).

(** What a field that [to_dict] emits only when it is true is parsed
    back as: itself, or [None] when it was left out. *)
Definition reparsed_field (v : pyval) : pyval :=
  if truthy v then v else PNone.

Definition Item_reparsed (i : Item.t) : Item.t :=
  Item.mk (reparsed_field (Item.href i)) (Item.data i) (Item.links i).

Definition Error_reparsed (e : Error.t) : Error.t :=
  Error.mk (reparsed_field (Error.code e)) (reparsed_field (Error.message e))
           (reparsed_field (Error.title e)).

(** The collection with the [href] of every item and the fields of the
    error parsed back. *)
Definition Collection_reparsed (c : Collection.t) : Collection.t :=
  Collection.mk (Collection.version c) (Collection.href c)
    (option_map Error_reparsed (Collection.error c))
    (Collection.template c)
    (Array.mk (Array.item_class (Collection.items c))
              (Array.collection_name (Collection.items c))
              (map Item_reparsed (Array.elems (Collection.items c))))
    (Collection.links c) (Collection.queries c).

(** A field that [to_dict] emits whenever it is set: [None], or a true
    value. *)
Definition kept (v : pyval) : bool := is_None v || truthy v.

Definition Error_kept (e : Error.t) : bool :=
  kept (Error.code e) && kept (Error.message e) && kept (Error.title e).

Definition Item_kept (i : Item.t) : bool := kept (Item.href i).

(** No item has an empty [href], and the error has no empty field. *)
Definition Collection_kept (c : Collection.t) : bool :=
  forallb Item_kept (Array.elems (Collection.items c)) &&
  match Collection.error c with
  | Some e => Error_kept e
  | None => true
  end.

(** The arrays inside an entity are the ones its setters build. *)
Definition Query_shaped (q : Query.t) : Prop :=
  array_of CData "data" (Query.data q).

Definition Item_shaped (i : Item.t) : Prop :=
  array_of CData "data" (Item.data i) /\ array_of CLink "links" (Item.links i).

Definition Template_shaped (t : Template.t) : Prop :=
  array_of CData "data" (Template.data t).

Definition Collection_shaped (c : Collection.t) : Prop :=
  array_of CItem "items" (Collection.items c) /\
  Forall Item_shaped (Array.elems (Collection.items c)) /\
  array_of CLink "links" (Collection.links c) /\
  array_of CQuery "queries" (Collection.queries c) /\
  Forall Query_shaped (Array.elems (Collection.queries c)) /\
  match Collection.template c with
  | Some t => Template_shaped t
  | None => True
  end.

(** No key occurs twice. *)
Fixpoint distinct (keys : list string) : bool :=
  match keys with
  | [] => true
  | k :: rest => negb (existsb (String.eqb k) rest) && distinct rest
  end.

(** Every dict inside the value has distinct keys, as every Python dict
    has. *)
Fixpoint unique_keys (v : pyval) : bool :=
  match v with
  | PList l => forallb unique_keys l
  | PDict d =>
      distinct (map fst d) &&
      forallb (fun kv => unique_keys (snd kv)) d
  | _ => true
  end.

Definition values_unique (d : pydict) : bool :=
  forallb (fun kv => unique_keys (snd kv)) d.

Definition Data_unique (d : Data.t) : bool :=
  unique_keys (Data.name d) && unique_keys (Data.value d) &&
  unique_keys (Data.prompt d).

Definition Link_unique (l : Link.t) : bool :=
  unique_keys (Link.href l) && unique_keys (Link.rel l) &&
  unique_keys (Link.name l) && unique_keys (Link.render l) &&
  unique_keys (Link.prompt l).

Definition Query_unique (q : Query.t) : bool :=
  unique_keys (Query.href q) && unique_keys (Query.rel q) &&
  unique_keys (Query.name q) && unique_keys (Query.prompt q) &&
  forallb Data_unique (Array.elems (Query.data q)).

Definition Item_unique (i : Item.t) : bool :=
  unique_keys (Item.href i) &&
  forallb Data_unique (Array.elems (Item.data i)) &&
  forallb Link_unique (Array.elems (Item.links i)).

Definition Error_unique (e : Error.t) : bool :=
  unique_keys (Error.code e) && unique_keys (Error.message e) &&
  unique_keys (Error.title e).

Definition Template_unique (t : Template.t) : bool :=
  forallb Data_unique (Array.elems (Template.data t)).

Definition Collection_unique (c : Collection.t) : bool :=
  unique_keys (Collection.version c) && unique_keys (Collection.href c) &&
  match Collection.error c with Some e => Error_unique e | None => true end &&
  match Collection.template c with
  | Some t => Template_unique t
  | None => true
  end &&
  forallb Item_unique (Array.elems (Collection.items c)) &&
  forallb Link_unique (Array.elems (Collection.links c)) &&
  forallb Query_unique (Array.elems (Collection.queries c)).

(** The exceptions a constructor call can end in: a [TypeError] (from the
    interpreter or from [_from_dict_or_value]) or the [ValueError] of
    [Array._build_items]. *)
Definition raised_by_constructor (e : exn) : Prop :=
  match e with
  | TypeError _ => True
  | ValueError (InvalidValueFor _ _) => True
  | _ => False
  end.

(** What [_build_items] makes of one element: the instance itself, or
    the object constructed from a dict; nothing else is accepted. *)
Definition accepted_as {T : Type} `{Entity T} (item : item_arg T) (x : T)
    : Prop :=
  match item with
  | Instance y => x = y
  | Raw (PDict d) => construct d = Ok x
  | Raw _ => False
  end.

(** The argument for a field that holds [None] or an instance. *)
Definition given_or_None {T : Type} (x : option T) : argument T :=
  match x with
  | Some x => Given x
  | None => Value PNone
  end.

(** The bytes at the head of [s] that continue a character begun
    before them. *)
Fixpoint continuation (s : string) : string :=
  match s with
  | String c s' =>
      if is_continuation c then String c (continuation s') else EmptyString
  | EmptyString => EmptyString
  end.

(** The outcome of a lookup is the data field of that name, or the
    several data fields of that name. *)
Definition fields_named (a : Array.t Data.t) (attr : string)
    (r : lookup Data.t) : Prop :=
  match r with
  | One d => In d (Array.elems a) /\ Data.name d = PStr attr
  | Many l =>
      forall d, In d l -> In d (Array.elems a) /\ Data.name d = PStr attr
  | Member _ => False
  end.

(** Every key of [kw] is one of the parameters. *)
Definition known_keys (params : list string) (kw : pydict) : bool :=
  forallb (fun kv => existsb (String.eqb (fst kv)) params) kw.

(* ===================================================================== *)
(** ** Sample documents *)
(* ===================================================================== *)

(** The three elements [{name: a, rel: x}], [{name: a, rel: y}],
    [{name: b, rel: x}] as links. *)
Definition link_a_x : Link.t :=
  Link.__init__ (PStr "/1") (PStr "x") (PStr "a") PNone PNone.
Definition link_a_y : Link.t :=
  Link.__init__ (PStr "/2") (PStr "y") (PStr "a") PNone PNone.
Definition link_b_x : Link.t :=
  Link.__init__ (PStr "/3") (PStr "x") (PStr "b") PNone PNone.

Definition three_links : Array.t Link.t :=
  Array.mk CLink "links" [link_a_x; link_a_y; link_b_x].

(** [Item()] and [Item(data=[{"name": "note", "value": "hi"}])] *)
Definition bare_item : Item.t :=
  Item.mk PNone (Array.mk CData "data" []) (Array.mk CLink "links" []).

Definition note : Data.t := Data.__init__ (PStr "note") (PStr "hi") PNone.

Definition note_item : Item.t :=
  Item.mk PNone (Array.mk CData "data" [note]) (Array.mk CLink "links" []).

(** The specification's end-to-end document, decoded, and the model it
    parses into. *)
Definition sample_items : pyval :=
  PList [PDict [("href", PStr "/i/1");
                ("data", PList [PDict [("name", PStr "n");
                                       ("value", PStr "v")]])]].

Definition sample_document : pyval :=
  PDict [("collection",
          PDict [("version", PStr "1.0"); ("href", PStr "/h");
                 ("items", sample_items)])].

Definition sample_collection : Collection.t :=
  Collection.mk (PStr "1.0") (PStr "/h") None None
    (Array.mk CItem "items"
       [Item.mk (PStr "/i/1")
          (Array.mk CData "data" [Data.__init__ (PStr "n") (PStr "v") PNone])
          (Array.mk CLink "links" [])])
    (Array.mk CLink "links" [])
    (Array.mk CQuery "queries" []).

(** A document whose error carries an empty code, the model it parses
    into, and the model its serialized form parses into. *)
Definition empty_code_document : pyval :=
  PDict [("collection",
          PDict [("href", PStr "/h");
                 ("error", PDict [("code", PStr "")])])].

Definition empty_code_collection : Collection.t :=
  Collection.mk (PStr "1.0") (PStr "/h")
    (Some (Error.__init__ (PStr "") PNone PNone)) None
    (Array.mk CItem "items" []) (Array.mk CLink "links" [])
    (Array.mk CQuery "queries" []).

Definition no_code_collection : Collection.t :=
  Collection.mk (PStr "1.0") (PStr "/h")
    (Some (Error.__init__ PNone PNone PNone)) None
    (Array.mk CItem "items" []) (Array.mk CLink "links" [])
    (Array.mk CQuery "queries" []).

(** [Query(href="/q", rel="search", data=[{"name": "q"}])] *)
Definition search_query : Query.t :=
  Query.mk (PStr "/q") (PStr "search") PNone PNone
    (Array.mk CData "data" [Data.__init__ (PStr "q") PNone PNone]).

(** [Item(href="", data=[{"name": "note", "value": "hi"}])] *)
Definition empty_href_item : Item.t :=
  Item.mk (PStr "") (Array.mk CData "data" [note]) (Array.mk CLink "links" []).

(** [Template(data=[{"name": "note", "value": "hi"}])] *)
Definition note_template : Template.t :=
  Template.mk (Array.mk CData "data" [note]).

(** [Template(data=[{"name": "find", "value": "x"}])] *)
Definition find_field : Data.t := Data.__init__ (PStr "find") (PStr "x") PNone.

Definition find_template : Template.t :=
  Template.mk (Array.mk CData "data" [find_field]).

(* ===================================================================== *)
(** ** Serialized forms of [Data] and [Error] *)
(* ===================================================================== *)

Lemma is_None_true (v : pyval) : is_None v = true <-> v = PNone.
Proof. destruct v; simpl; split; congruence. Qed.

Lemma is_None_false (v : pyval) : is_None v = false <-> v <> PNone.
Proof. destruct v; simpl; split; congruence. Qed.

(** C9. [Data.to_dict] has the key [value] exactly when the field is not
    [None], and then with the field's value; the same for [prompt]; an
    empty string is a value like any other and is emitted. *)
Theorem Data_to_dict_optional_fields (d : Data.t) :
  key_of (Data.to_dict d) "value" =
    (if is_None (Data.value d) then None else Some (Data.value d)) /\
  key_of (Data.to_dict d) "prompt" =
    (if is_None (Data.prompt d) then None else Some (Data.prompt d)) /\
  key_of (Data.to_dict d) "name" = Some (Data.name d) /\
  key_of (Data.to_dict (Data.__init__ (Data.name d) (PStr "") (Data.prompt d)))
         "value" = Some (PStr "").
Proof.
  destruct d as [n v p]; unfold Data.to_dict, Data.entries; simpl.
  destruct (is_None v), (is_None p); simpl; repeat split; reflexivity.
Qed.

Lemma Error_fields_shape (e : Error.t) :
  Error.fields e =
    emitted (truthy (Error.code e)) "code" (Error.code e) ++
    emitted (truthy (Error.message e)) "message" (Error.message e) ++
    emitted (truthy (Error.title e)) "title" (Error.title e).
Proof.
  unfold Error.fields, emitted.
  destruct (truthy (Error.code e)), (truthy (Error.message e)),
    (truthy (Error.title e)); reflexivity.
Qed.

(** C10. [Error.to_dict] always has the key [error]; under it, [code],
    [message] and [title] appear, in this order, exactly when they are
    true values.  With no field set the result is [{"error": {}}], and
    an empty string is left out as [None] is. *)
Theorem Error_to_dict_truthy_fields (e : Error.t) :
  Error.to_dict e =
    PDict [("error",
            PDict (emitted (truthy (Error.code e)) "code" (Error.code e) ++
                   emitted (truthy (Error.message e)) "message"
                           (Error.message e) ++
                   emitted (truthy (Error.title e)) "title"
                           (Error.title e)))] /\
  key_of (Error.to_dict e) "error" = Some (PDict (Error.fields e)) /\
  dict_get "code" (Error.fields e) =
    (if truthy (Error.code e) then Some (Error.code e) else None) /\
  dict_get "message" (Error.fields e) =
    (if truthy (Error.message e) then Some (Error.message e) else None) /\
  dict_get "title" (Error.fields e) =
    (if truthy (Error.title e) then Some (Error.title e) else None) /\
  Error.to_dict (Error.__init__ PNone PNone PNone) = PDict [("error", PDict [])] /\
  Error.to_dict (Error.__init__ (PStr "") (Error.message e) (Error.title e)) =
    Error.to_dict (Error.__init__ PNone (Error.message e) (Error.title e)) /\
  Error.to_dict (Error.__init__ (Error.code e) (PStr "") (Error.title e)) =
    Error.to_dict (Error.__init__ (Error.code e) PNone (Error.title e)) /\
  Error.to_dict (Error.__init__ (Error.code e) (Error.message e) (PStr "")) =
    Error.to_dict (Error.__init__ (Error.code e) (Error.message e) PNone).
Proof.
  split.
  { unfold Error.to_dict, Error.entries. now rewrite Error_fields_shape. }
  split; [reflexivity|].
  rewrite Error_fields_shape.
  destruct e as [c m t]; unfold emitted; simpl.
  destruct (truthy c), (truthy m), (truthy t); simpl; repeat split; reflexivity.
Qed.

(* ===================================================================== *)
(** ** Lookup in arrays *)
(* ===================================================================== *)

Section Lookup.
Context {T : Type} `{Named T}.

Lemma attribute_eqb_None (a : attribute) : attribute_eqb a PNone = absent a.
Proof.
  destruct a as [v | l]; simpl.
  - destruct v; reflexivity.
  - destruct l as [x | l | m]; try reflexivity. destruct l; reflexivity.
Qed.

(** With at least one criterion given, the three branches of the loop
    body amount to: every given criterion is met. *)
Lemma yields_satisfies (name rel : pyval) (x : T) :
  is_None name && is_None rel = false ->
  Array.yields name rel (attr_name x) (attr_rel x) = satisfies name rel x.
Proof.
  unfold Array.yields, satisfies.
  destruct (is_None name) eqn:En, (is_None rel) eqn:Er; simpl; intros Hgiven;
    try discriminate.
  - apply is_None_true in En. subst name.
    rewrite andb_true_r, attribute_eqb_None.
    destruct (attribute_eqb (attr_rel x) rel); [reflexivity|].
    now rewrite andb_false_r.
  - apply is_None_true in Er. subst rel.
    rewrite !andb_true_r.
    now destruct (attribute_eqb (attr_name x) name).
  - now destruct (attribute_eqb (attr_name x) name),
      (attribute_eqb (attr_rel x) rel).
Qed.

(** With no criterion given only the third branch can fire. *)
Lemma yields_no_criteria (x : T) :
  Array.yields PNone PNone (attr_name x) (attr_rel x) =
    absent (attr_name x) && absent (attr_rel x).
Proof.
  unfold Array.yields; simpl. rewrite !attribute_eqb_None.
  now destruct (absent (attr_name x)), (absent (attr_rel x)).
Qed.

Lemma filter_nil_iff (f : T -> bool) (l : list T) :
  filter f l = [] <-> forall x, In x l -> f x = false.
Proof.
  induction l as [|y l IH]; simpl.
  - split; [intros _ x []| reflexivity].
  - destruct (f y) eqn:Ey.
    + split; [discriminate|]. intros Hall.
      specialize (Hall y (or_introl eq_refl)). congruence.
    + rewrite IH. split.
      * intros Hall x [->|Hin]; auto.
      * intros Hall x Hin. apply Hall. now right.
Qed.



End Lookup.

(** C3, as stated, fails: on the array holding the single item [Item()],
    which has neither a name nor a rel, [find()] returns that item. *)
Lemma find_without_criteria_returns_bare_item :
  Array.__init__ "items" [Raw (PDict [])] =
    Ok (Array.mk CItem "items" [bare_item]) /\
  Array.find (Array.mk CItem "items" [bare_item]) PNone PNone = [bare_item] /\
  Array.find (Array.mk CItem "items" [bare_item]) PNone PNone <> [].
Proof. repeat split; try reflexivity. discriminate. Qed.

(** C3, amended. [find()] with neither [name] nor [rel] returns, in array
    order, exactly the elements whose [name] and [rel] are both absent;
    it is empty exactly when every element has a name or a rel. *)
Theorem find_without_criteria {T : Type} `{Named T} (a : Array.t T) :
  Array.find a PNone PNone =
    filter (fun x => absent (attr_name x) && absent (attr_rel x))
           (Array.elems a) /\
  (Array.find a PNone PNone = [] <->
   forall x, In x (Array.elems a) ->
             absent (attr_name x) && absent (attr_rel x) = false).
Proof.
  assert (Hfind : Array.find a PNone PNone =
            filter (fun x => absent (attr_name x) && absent (attr_rel x))
                   (Array.elems a)).
  { unfold Array.find, Array._matches. apply filter_ext.
    intros x. apply yields_no_criteria. }
  split; [exact Hfind|].
  rewrite Hfind. apply filter_nil_iff.
Qed.

(** C5. With at least one of [name] and [rel] given, [find] returns, in
    array order, the elements that meet every given criterion.  So with
    only [name] given an element matches exactly when its name equals
    [name], whatever its [rel]; with only [rel] given exactly when its rel
    equals [rel], whatever its name; with both given exactly when both
    are equal. *)
Theorem find_given_criteria {T : Type} `{Named T} (a : Array.t T)
    (name rel : pyval) :
  is_None name && is_None rel = false ->
  Array.find a name rel = filter (satisfies name rel) (Array.elems a) /\
  (rel = PNone ->
   Array.find a name rel =
     filter (fun x => attribute_eqb (attr_name x) name) (Array.elems a)) /\
  (name = PNone ->
   Array.find a name rel =
     filter (fun x => attribute_eqb (attr_rel x) rel) (Array.elems a)) /\
  (name <> PNone -> rel <> PNone ->
   Array.find a name rel =
     filter (fun x => attribute_eqb (attr_name x) name &&
                      attribute_eqb (attr_rel x) rel)
            (Array.elems a)).
Proof.
  intros Hgiven.
  assert (Hfind : Array.find a name rel =
                    filter (satisfies name rel) (Array.elems a)).
  { unfold Array.find, Array._matches.
    apply filter_ext. intros x. now apply yields_satisfies. }
  rewrite Hfind. unfold satisfies. repeat split.
  - intros ->. apply filter_ext. intros x. simpl.
    destruct (is_None name); [discriminate|]. simpl. apply andb_true_r.
  - intros ->. simpl in Hgiven. simpl. now rewrite Hgiven.
  - intros Hname Hrel. apply is_None_false in Hname, Hrel.
    now rewrite Hname, Hrel.
Qed.

(** The lookups of the specification's example: [find(name="a")] gives
    the first two elements, [find(rel="x")] the first and the third,
    [find(name="a", rel="y")] the second only. *)
Lemma find_given_criteria_witness :
  Array.find three_links (PStr "a") PNone = [link_a_x; link_a_y] /\
  Array.find three_links PNone (PStr "x") = [link_a_x; link_b_x] /\
  Array.find three_links (PStr "a") (PStr "y") = [link_a_y].
Proof.
  rewrite (proj1 (find_given_criteria three_links (PStr "a") PNone eq_refl)).
  rewrite (proj1 (find_given_criteria three_links PNone (PStr "x") eq_refl)).
  rewrite (proj1 (find_given_criteria three_links (PStr "a") (PStr "y")
                                      eq_refl)).
  repeat split; reflexivity.
Defined.


(* ===================================================================== *)
(** ** Attribute delegation *)
(* ===================================================================== *)

Lemma getattr_hook_looked_up {T : Type} `{Named T} (a : Array.t T)
    (attr : string) :
  looked_up (Array.find a (PStr attr) PNone) (Array.__getattr__ a attr).
Proof.
  unfold looked_up, Array.__getattr__.
  destruct (Array.find a (PStr attr) PNone) as [|x [|y rest]]; simpl;
    repeat split; try congruence; try lia.
Qed.

Lemma getattr_unknown {T : Type} `{Named T} (a : Array.t T) (attr : string) :
  unknown_on_array attr = true ->
  Array.getattr a attr = Array.__getattr__ a attr.
Proof.
  unfold unknown_on_array, Array.getattr. intros Hunknown.
  apply negb_true_iff in Hunknown. now rewrite Hunknown.
Qed.

Lemma getattr_known {T : Type} `{Named T} (a : Array.t T) (attr : string) :
  unknown_on_array attr = false -> Array.getattr a attr = Ok (Member attr).
Proof.
  unfold unknown_on_array, Array.getattr. intros Hknown.
  apply negb_false_iff in Hknown. now rewrite Hknown.
Qed.

Lemma Item_getattr_unknown (i : Item.t) (attr : string) :
  unknown_on_item attr = true ->
  Item.getattr i attr = Array.getattr (Item.data i) attr.
Proof.
  unfold unknown_on_item, Item.getattr, Item.__getattr__. intros Hunknown.
  apply negb_true_iff in Hunknown. now rewrite Hunknown.
Qed.

Lemma Template_getattr_unknown (t : Template.t) (attr : string) :
  unknown_on_template attr = true ->
  Template.getattr t attr = Array.getattr (Template.data t) attr.
Proof.
  unfold unknown_on_template, Template.getattr, Template.__getattr__.
  intros Hunknown. apply negb_true_iff in Hunknown. now rewrite Hunknown.
Qed.

(** C6, where the claim fails.  On [Template(data=[{"name": "find",
    "value": "x"}])] the name [find] is no attribute of the template
    itself and [find(name="find")] on its data has exactly one match,
    yet the lookup does not give that [Data]: the forwarded lookup ends
    at the array's own method [find]. *)
Theorem array_attribute_hides_data_field :
  unknown_on_template "find" = true /\
  Array.find (Template.data find_template) (PStr "find") PNone =
    [find_field] /\
  Template.getattr find_template "find" = Ok (Member "find") /\
  ~ looked_up (Array.find (Template.data find_template) (PStr "find") PNone)
              (Template.getattr find_template "find").
Proof.
  split; [reflexivity|]. split; [reflexivity|]. split; [reflexivity|].
  intros (_ & Hone & _). specialize (Hone find_field eq_refl).
  discriminate Hone.
Qed.

(** C6. For a name the array itself does not have (no field of the
    array and no attribute of [Array], [ComparableObject], [list] or
    [object]), attribute access on an array is [find(name=attr)]
    collapsed: no match raises [AttributeError], one match is returned
    itself, several are returned as the ordered list; the matches are the
    elements whose name equals [attr].  [Item] and [Template] forward
    every name they do not themselves have to the attribute lookup on
    their data array: that is [find(name=attr)] collapsed when the array
    does not have the name either, and the array's own attribute when it
    does, whatever the data fields are called. *)
Theorem attribute_lookup_is_find_by_name {T : Type} `{Named T}
    (a : Array.t T) (i : Item.t) (t : Template.t) (attr : string) :
  Array.find a (PStr attr) PNone =
    filter (fun x => attribute_eqb (attr_name x) (PStr attr)) (Array.elems a) /\
  (unknown_on_array attr = true ->
   looked_up (Array.find a (PStr attr) PNone) (Array.getattr a attr)) /\
  (unknown_on_item attr = true ->
   Item.getattr i attr = Array.getattr (Item.data i) attr) /\
  (unknown_on_template attr = true ->
   Template.getattr t attr = Array.getattr (Template.data t) attr) /\
  (unknown_on_item attr = true -> unknown_on_array attr = true ->
   looked_up (Array.find (Item.data i) (PStr attr) PNone)
             (Item.getattr i attr)) /\
  (unknown_on_template attr = true -> unknown_on_array attr = true ->
   looked_up (Array.find (Template.data t) (PStr attr) PNone)
             (Template.getattr t attr)) /\
  (unknown_on_array attr = false ->
   Array.getattr a attr = Ok (Member attr) /\
   (unknown_on_item attr = true -> Item.getattr i attr = Ok (Member attr)) /\
   (unknown_on_template attr = true ->
    Template.getattr t attr = Ok (Member attr))).
Proof.
  split.
  { unfold Array.find, Array._matches. apply filter_ext. intros x.
    rewrite (yields_satisfies (PStr attr) PNone x eq_refl).
    unfold satisfies. simpl. apply andb_true_r. }
  split.
  { intros Ha. rewrite (getattr_unknown a attr Ha).
    apply getattr_hook_looked_up. }
  split; [apply Item_getattr_unknown|].
  split; [apply Template_getattr_unknown|].
  split.
  { intros Hi Ha. rewrite (Item_getattr_unknown i attr Hi).
    rewrite (getattr_unknown (Item.data i) attr Ha).
    apply getattr_hook_looked_up. }
  split.
  { intros Ht Ha. rewrite (Template_getattr_unknown t attr Ht).
    rewrite (getattr_unknown (Template.data t) attr Ha).
    apply getattr_hook_looked_up. }
  intros Ha. split; [exact (getattr_known a attr Ha)|]. split.
  - intros Hi. rewrite (Item_getattr_unknown i attr Hi).
    exact (getattr_known (Item.data i) attr Ha).
  - intros Ht. rewrite (Template_getattr_unknown t attr Ht).
    exact (getattr_known (Template.data t) attr Ha).
Qed.

(** The specification's example: on [Item(data=[{"name": "note",
    "value": "hi"}])] the attribute [note] is the [Data] itself. *)
Lemma attribute_lookup_is_find_by_name_witness :
  unknown_on_item "note" = true /\ unknown_on_array "note" = true /\
  Item.getattr note_item "note" = Ok (One note).
Proof.
  split; [reflexivity|]. split; [reflexivity|].
  destruct (attribute_lookup_is_find_by_name
              (Item.data note_item) note_item
              (Template.mk (Item.data note_item)) "note")
    as (_ & _ & _ & _ & Hitem & _).
  destruct (Hitem eq_refl eq_refl) as (_ & Hone & _).
  apply Hone. reflexivity.
Defined.

(* ===================================================================== *)
(** ** Building an array *)
(* ===================================================================== *)

Section Build.
Context {T : Type} `{Entity T}.

Lemma build_items_app (cls0 : cls) (pre rest : list (item_arg T))
    (accepted : list T) :
  Array._build_items cls0 pre = Ok accepted ->
  Array._build_items cls0 (pre ++ rest) =
    (result <- Array._build_items cls0 rest ;; Ok (accepted ++ result)).
Proof.
  revert accepted. induction pre as [|item pre IH]; simpl; intros accepted.
  - intros [= <-]. simpl. now destruct (Array._build_items cls0 rest).
  - destruct (match item with
              | Instance x => Ok x
              | Raw (PDict d) => construct d
              | Raw v => Raise (ValueError (InvalidValueFor (cls_name cls0) v))
              end) as [x|e]; simpl; [|discriminate].
    destruct (Array._build_items cls0 pre) as [xs|e]; simpl; [|discriminate].
    intros [= <-]. rewrite (IH xs eq_refl).
    now destruct (Array._build_items cls0 rest).
Qed.

Lemma build_items_rejects (cls0 : cls) (v : pyval) (post : list (item_arg T)) :
  is_dict v = false ->
  Array._build_items cls0 (Raw v :: post) =
    Raise (ValueError (InvalidValueFor (cls_name cls0) v)).
Proof. destruct v; simpl; intros Hv; try reflexivity; discriminate. Qed.

End Build.

(** C4, as stated, fails: a bare integer among the items of a
    [Collection] raises a [ValueError], not a [TypeError]. *)
Lemma bare_integer_item_raises_ValueError :
  Collection.__init__ (PStr "/h") (Values PNone) (Items [Raw (PInt 5)])
                      (Values PNone) (Value PNone) (Value PNone) (PStr "1.0") =
    Raise (ValueError (InvalidValueFor "Item" (PInt 5))) /\
  is_TypeError
    (Collection.__init__ (PStr "/h") (Values PNone) (Items [Raw (PInt 5)])
                         (Values PNone) (Value PNone) (Value PNone)
                         (PStr "1.0")) = false /\
  is_TypeError
    (Collection.from_loaded
       (Ok (PDict [("collection",
                    PDict [("href", PStr "/h");
                           ("items", PList [PInt 5])])]))) = false.
Proof. repeat split; reflexivity. Qed.

(** C4, amended. When all elements before it are accepted, an element
    that is neither an instance of the item class nor a dict makes the
    construction of the array fail with a [ValueError] whose message
    carries the name of the item class and the offending value. *)
Theorem Array_rejects_other_values {T : Type} `{Entity T} (name : string)
    (pre : list (item_arg T)) (accepted : list T) (v : pyval)
    (post : list (item_arg T)) :
  Array._build_items class_of pre = Ok accepted ->
  is_dict v = false ->
  Array.__init__ name (pre ++ Raw v :: post) =
    Raise (ValueError (InvalidValueFor (cls_name class_of) v)).
Proof.
  intros Hpre Hv. unfold Array.__init__.
  rewrite (@build_items_app T _ class_of pre (Raw v :: post) accepted Hpre).
  now rewrite (@build_items_rejects T _ class_of v post Hv).
Qed.

(** An items array given an item (as a dict) followed by the integer 5. *)
Lemma Array_rejects_other_values_witness :
  Array.__init__ (T := Item.t) "items" ([Raw (PDict [])] ++ [Raw (PInt 5)]) =
    Raise (ValueError (InvalidValueFor "Item" (PInt 5))).
Proof.
  exact (@Array_rejects_other_values Item.t _ "items" [Raw (PDict [])]
           [bare_item] (PInt 5) [] eq_refl eq_refl).
Defined.

(* ===================================================================== *)
(** ** The shape of constructed entities *)
(* ===================================================================== *)

Lemma bind_Ok {A B : Type} (r : result A) (k : A -> result B) (y : B) :
  bind r k = Ok y -> exists x, r = Ok x /\ k x = Ok y.
Proof. destruct r as [x|e]; simpl; [eauto|discriminate]. Qed.

Ltac bind_inv H :=
  let x := fresh "x" in
  let Hx := fresh "Hx" in
  apply bind_Ok in H; destruct H as (x & Hx & H).

Lemma Array_init_shape {T : Type} `{Entity T} (name : string)
    (items : list (item_arg T)) (a : Array.t T) :
  Array.__init__ name items = Ok a ->
  exists xs, Array._build_items class_of items = Ok xs /\
             a = Array.mk class_of name xs.
Proof.
  unfold Array.__init__. intros Ha. bind_inv Ha.
  injection Ha as <-. eauto.
Qed.

Lemma from_iterable_shape {T : Type} `{Entity T} (name : string)
    (it : iterable T) (a : Array.t T) :
  _from_iterable_to_array name it = Ok a -> array_of class_of name a.
Proof.
  unfold _from_iterable_to_array, array_of. intros Ha.
  assert (Hinit : exists items, Array.__init__ name items = Ok a).
  { destruct it as [v|l]; [|eauto].
    destruct v; simpl in Ha; try discriminate; eauto. }
  destruct Hinit as (items & Hinit).
  apply Array_init_shape in Hinit as (xs & _ & ->). now split.
Qed.

Lemma array_of_eq {T : Type} (c : cls) (name : string) (a : Array.t T) :
  array_of c name a -> a = Array.mk c name (Array.elems a).
Proof. destruct a; unfold array_of; simpl. now intros [-> ->]. Qed.

(* ===================================================================== *)
(** ** Serialized form of a [Collection] *)
(* ===================================================================== *)

(** The entries of [output['collection']] once the arrays carry their
    names. *)
Lemma Collection_fields_shape (c : Collection.t) :
  array_of CLink "links" (Collection.links c) ->
  array_of CItem "items" (Collection.items c) ->
  array_of CQuery "queries" (Collection.queries c) ->
  Collection.fields c =
    [("version", Collection.version c); ("href", Collection.href c)] ++
    emitted (Array.__bool__ (Collection.links c)) "links"
      (PList (map Link.to_dict (Array.elems (Collection.links c)))) ++
    emitted (Array.__bool__ (Collection.items c)) "items"
      (PList (map Item.to_dict (Array.elems (Collection.items c)))) ++
    emitted (Array.__bool__ (Collection.queries c)) "queries"
      (PList (map Query.to_dict (Array.elems (Collection.queries c)))) ++
    match Collection.template c with
    | Some t => [("template", Array.to_dict (Template.data t))]
    | None => []
    end ++
    match Collection.error c with
    | Some e => [("error", PDict (Error.fields e))]
    | None => []
    end.
Proof.
  destruct c as [ver h e t its ls qs]; simpl. intros Hl Hi Hq.
  apply array_of_eq in Hl, Hi, Hq.
  unfold Collection.fields; simpl.
  rewrite Hl, Hi, Hq. unfold Array.__bool__, Array.entries, emitted; simpl.
  destruct (Array.elems ls), (Array.elems its), (Array.elems qs), t, e;
    reflexivity.
Qed.

(** C2, as stated, fails: a collection whose error is the empty
    [Error()] still serializes a key for it, ["error": {}], and one whose
    template has no data serializes ["template": {"data": []}]. *)
Lemma empty_error_and_template_are_serialized :
  exists c,
    Collection.__init__ (PStr "/h") (Values PNone) (Values PNone)
                        (Values PNone) (Value (PDict [])) (Value (PDict []))
                        (PStr "1.0") = Ok c /\
    Collection.error c = Some (Error.__init__ PNone PNone PNone) /\
    Collection.template c = Some (Template.mk (Array.mk CData "data" [])) /\
    Collection.to_dict c =
      PDict [("collection",
              PDict [("version", PStr "1.0"); ("href", PStr "/h");
                     ("template", PDict [("data", PList [])]);
                     ("error", PDict [])])] /\
    key_of (PDict (Collection.fields c)) "error" <> None /\
    key_of (PDict (Collection.fields c)) "template" <> None.
Proof.
  eexists. split; [reflexivity|].
  repeat split; try reflexivity; discriminate.
Qed.

(** C2, amended. For a constructed collection, [to_dict] is
    [{"collection": {...}}] holding [version] and [href] followed, in
    this order, by [links], [items] and [queries], each present exactly
    when the array is not empty, and by [template] and [error], each
    present exactly when the field is not [None]: an [Error] or a
    [Template] that is set is serialized even when it is empty. *)
Theorem Collection_to_dict_parts (href : pyval) (links : iterable Link.t)
    (items : iterable Item.t) (queries : iterable Query.t)
    (template : argument Template.t) (error : argument Error.t)
    (version : pyval) (c : Collection.t) :
  Collection.__init__ href links items queries template error version = Ok c ->
  Collection.to_dict c =
    PDict [("collection",
            PDict ([("version", version); ("href", href)] ++
                   emitted (Array.__bool__ (Collection.links c)) "links"
                     (PList (map Link.to_dict
                                 (Array.elems (Collection.links c)))) ++
                   emitted (Array.__bool__ (Collection.items c)) "items"
                     (PList (map Item.to_dict
                                 (Array.elems (Collection.items c)))) ++
                   emitted (Array.__bool__ (Collection.queries c)) "queries"
                     (PList (map Query.to_dict
                                 (Array.elems (Collection.queries c)))) ++
                   match Collection.template c with
                   | Some t => [("template", Array.to_dict (Template.data t))]
                   | None => []
                   end ++
                   match Collection.error c with
                   | Some e => [("error", PDict (Error.fields e))]
                   | None => []
                   end))].
Proof.
  unfold Collection.__init__. intros Hc.
  bind_inv Hc. bind_inv Hc. bind_inv Hc. bind_inv Hc. bind_inv Hc.
  injection Hc as <-.
  apply from_iterable_shape in Hx1, Hx2, Hx3.
  unfold Collection.to_dict, Collection.entries.
  now rewrite Collection_fields_shape.
Qed.

(** The specification's end-to-end document: only [items] is added to
    [version] and [href]. *)
Lemma Collection_to_dict_parts_witness :
  Collection.__init__ (PStr "/h") (Values PNone) (Values sample_items)
                      (Values PNone) (Value PNone) (Value PNone) (PStr "1.0") =
    Ok sample_collection /\
  Collection.to_dict sample_collection = sample_document.
Proof.
  split; [reflexivity|].
  rewrite (@Collection_to_dict_parts
             (PStr "/h") (Values PNone) (Values sample_items) (Values PNone)
             (Value PNone) (Value PNone) (PStr "1.0") sample_collection
             eq_refl).
  reflexivity.
Defined.

(* ===================================================================== *)
(** ** Serializing and parsing again *)
(* ===================================================================== *)

Arguments _from_iterable_to_array : simpl never.
Arguments _from_dict_or_value : simpl never.

Lemma dict_or_None_cases (v : pyval) : v = PNone \/ is_None v = false.
Proof. destruct v; auto. Qed.

Ltac none_cases v :=
  let E := fresh "E" in
  destruct (dict_or_None_cases v) as [E|E]; [subst v|rewrite ?E].

(** Evaluates the lookups of the parameters in a literal [kwargs]. *)
Ltac eval_optional :=
  repeat match goal with
         | |- context [optional ?k ?d] =>
             let v := eval cbv in (optional k d) in
             change (optional k d) with v
         end.

(** [Data( **d.to_dict() )] is [d] again. *)
Lemma Data_round_trip (d : Data.t) : Data.new (Data.entries d) = Ok d.
Proof.
  destruct d as [n v p]. unfold Data.new, Data.entries; simpl.
  none_cases v; none_cases p; reflexivity.
Qed.

(** [Link( **l.to_dict() )] is [l] again. *)
Lemma Link_round_trip (l : Link.t) : Link.new (Link.entries l) = Ok l.
Proof.
  destruct l as [h r n rd p]. unfold Link.new, Link.entries; simpl.
  none_cases n; none_cases rd; none_cases p; reflexivity.
Qed.

Section ArrayRoundTrip.
Context {T : Type} `{Entity T}.
Variable as_ : T -> T.

Lemma build_items_round_trip (xs : list T) :
  Forall (reconstructed as_) xs ->
  Array._build_items class_of (map Raw (map to_dict xs)) = Ok (map as_ xs).
Proof.
  induction 1 as [|x xs (d & Hd & Hx) _ IH]; simpl; [reflexivity|].
  rewrite Hd, Hx; simpl. now rewrite IH.
Qed.

Lemma from_values_round_trip (name : string) (xs : list T) :
  Forall (reconstructed as_) xs ->
  _from_iterable_to_array name (Values (PList (map to_dict xs))) =
    Ok (Array.mk class_of name (map as_ xs)).
Proof.
  intros Hxs. unfold _from_iterable_to_array, Array.__init__; simpl.
  now rewrite build_items_round_trip.
Qed.

(** The array comes back from what [to_dict] leaves of it: its list when
    it is not empty, no key at all otherwise. *)
Lemma from_values_or_None (name : string) (a : Array.t T) :
  Forall (reconstructed as_) (Array.elems a) ->
  _from_iterable_to_array name
    (Values (if Array.__bool__ a then PList (map to_dict (Array.elems a))
             else PNone)) =
    Ok (Array.mk class_of name (map as_ (Array.elems a))).
Proof.
  intros Hxs. unfold Array.__bool__.
  destruct (Array.elems a) as [|x xs] eqn:Exs; [reflexivity|].
  now apply from_values_round_trip.
Qed.

(** What [_build_items] accepts from raw values was constructed from a
    dict. *)
Lemma build_items_constructed (c : cls) (vs : list pyval) (xs : list T) :
  Array._build_items c (map Raw vs) = Ok xs ->
  Forall (fun x => exists d, construct d = Ok x) xs.
Proof.
  revert xs. induction vs as [|v vs IH]; simpl; intros xs Hxs.
  - injection Hxs as <-. constructor.
  - bind_inv Hxs. bind_inv Hxs. injection Hxs as <-.
    constructor; [|now apply IH].
    destruct v; try discriminate. eauto.
Qed.

Lemma from_values_constructed (name : string) (v : pyval) (a : Array.t T) :
  _from_iterable_to_array name (Values v) = Ok a ->
  Forall (fun x => exists d, construct d = Ok x) (Array.elems a).
Proof.
  unfold _from_iterable_to_array. intros Ha.
  assert (Hinit : exists vs, Array.__init__ name (map Raw vs) = Ok a).
  { destruct v; simpl in Ha; try discriminate; eauto. now exists []. }
  destruct Hinit as (vs & Hinit).
  apply Array_init_shape in Hinit as (xs & Hxs & ->). simpl.
  now apply build_items_constructed in Hxs.
Qed.

End ArrayRoundTrip.

(** An array whose elements come back unchanged comes back unchanged. *)
Lemma array_round_trip {T : Type} `{Entity T} (name : string) (a : Array.t T) :
  array_of class_of name a ->
  Forall (reconstructed (fun x => x)) (Array.elems a) ->
  _from_iterable_to_array name
    (Values (if Array.__bool__ a then PList (map to_dict (Array.elems a))
             else PNone)) = Ok a.
Proof.
  intros Ha Hxs. rewrite (@from_values_or_None T _ (fun x => x) name a Hxs).
  rewrite map_id. now rewrite <- (@array_of_eq T class_of name a Ha).
Qed.

Lemma all_Data_reconstructed (ds : list Data.t) :
  Forall (reconstructed (fun d => d)) ds.
Proof.
  apply Forall_forall. intros d _. exists (Data.entries d).
  split; [reflexivity|apply Data_round_trip].
Qed.

Lemma all_Link_reconstructed (ls : list Link.t) :
  Forall (reconstructed (fun l => l)) ls.
Proof.
  apply Forall_forall. intros l _. exists (Link.entries l).
  split; [reflexivity|apply Link_round_trip].
Qed.

Lemma Query_round_trip (q : Query.t) :
  Query_shaped q -> Query.new (Query.entries q) = Ok q.
Proof.
  destruct q as [h r n p a]. unfold Query_shaped; simpl. intros Ha.
  pose proof (@array_round_trip Data.t _ "data" a Ha
                (all_Data_reconstructed (Array.elems a))) as Hdata.
  apply array_of_eq in Ha. rewrite Ha in *. clear Ha. simpl in Hdata.
  unfold Query.new, Query.entries, Query.__init__, Array.entries,
    Array.__bool__ in *; simpl in *.
  destruct (Array.elems a) as [|d ds].
  - none_cases n; none_cases p; reflexivity.
  - remember (PList (map Data.to_dict (d :: ds))) as payload.
    none_cases n; none_cases p; simpl; eval_optional; rewrite Hdata;
      reflexivity.
Qed.

(** [Item( **i.to_dict() )] is [i] with its [href] parsed back. *)
Lemma Item_round_trip (i : Item.t) :
  Item_shaped i -> Item.new (Item.entries i) = Ok (Item_reparsed i).
Proof.
  destruct i as [h a l]. unfold Item_shaped, Item_reparsed; simpl.
  intros [Ha Hl].
  pose proof (@array_round_trip Data.t _ "data" a Ha
                (all_Data_reconstructed (Array.elems a))) as Hdata.
  pose proof (@array_round_trip Link.t _ "links" l Hl
                (all_Link_reconstructed (Array.elems l))) as Hlinks.
  apply array_of_eq in Ha, Hl. rewrite Ha, Hl in *. clear Ha Hl.
  simpl in Hdata, Hlinks.
  unfold Item.new, Item.entries, Item.__init__, Array.entries, Array.__bool__,
    reparsed_field in *; simpl in *.
  destruct (Array.elems a) as [|d ds], (Array.elems l) as [|k ks].
  - destruct (truthy h); reflexivity.
  - remember (PList (map Link.to_dict (k :: ks))) as links.
    destruct (truthy h); simpl; eval_optional; simpl; rewrite Hlinks;
      reflexivity.
  - remember (PList (map Data.to_dict (d :: ds))) as data.
    destruct (truthy h); simpl; eval_optional; rewrite Hdata; reflexivity.
  - remember (PList (map Data.to_dict (d :: ds))) as data.
    remember (PList (map Link.to_dict (k :: ks))) as links.
    destruct (truthy h); simpl; eval_optional; rewrite Hdata; simpl;
      rewrite Hlinks; reflexivity.
Qed.

(** [Error( **fields )] is the error with its fields parsed back. *)
Lemma Error_round_trip (e : Error.t) :
  Error.new (Error.fields e) = Ok (Error_reparsed e).
Proof.
  destruct e as [c m t].
  unfold Error.new, Error.fields, Error_reparsed, reparsed_field; simpl.
  destruct (truthy c), (truthy m), (truthy t); reflexivity.
Qed.

Lemma Template_round_trip (t : Template.t) :
  Template_shaped t -> Template.new (Array.entries (Template.data t)) = Ok t.
Proof.
  destruct t as [a]. unfold Template_shaped; simpl. intros Ha.
  pose proof (@from_values_round_trip Data.t _ (fun d => d) "data" _
                (all_Data_reconstructed (Array.elems a))) as Hdata.
  rewrite map_id in Hdata.
  apply array_of_eq in Ha. rewrite Ha. clear Ha. simpl in Hdata.
  unfold Template.new, Template.__init__, Array.entries; simpl.
  remember (PList (map Data.to_dict (Array.elems a))) as payload.
  simpl. eval_optional. rewrite Hdata. reflexivity.
Qed.

Lemma all_Item_reconstructed (its : list Item.t) :
  Forall Item_shaped its -> Forall (reconstructed Item_reparsed) its.
Proof.
  intros Hits. eapply Forall_impl; [|exact Hits].
  intros i Hi. exists (Item.entries i).
  split; [reflexivity|now apply Item_round_trip].
Qed.

Lemma all_Query_reconstructed (qs : list Query.t) :
  Forall Query_shaped qs -> Forall (reconstructed (fun q => q)) qs.
Proof.
  intros Hqs. eapply Forall_impl; [|exact Hqs].
  intros q Hq. exists (Query.entries q).
  split; [reflexivity|now apply Query_round_trip].
Qed.

(** [Collection( **fields )] is the collection with the [href]s of its
    items and the fields of its error parsed back. *)
Lemma Collection_new_round_trip (c : Collection.t) :
  Collection_shaped c ->
  Collection.new (Collection.fields c) = Ok (Collection_reparsed c).
Proof.
  intros (Hi & Hish & Hl & Hq & Hqsh & Ht).
  rewrite (@Collection_fields_shape c Hl Hi Hq).
  pose proof (@array_round_trip Link.t _ "links" _ Hl
                (all_Link_reconstructed _)) as Flinks.
  pose proof (@from_values_or_None Item.t _ Item_reparsed "items" _
                (all_Item_reconstructed Hish)) as Fitems.
  pose proof (@array_round_trip Query.t _ "queries" _ Hq
                (all_Query_reconstructed Hqsh)) as Fqueries.
  assert (Ftemplate :
            _from_dict_or_value
              (Value match Collection.template c with
                     | Some t => Array.to_dict (Template.data t)
                     | None => PNone
                     end) = Ok (Collection.template c)).
  { destruct (Collection.template c) as [t|]; [|reflexivity].
    unfold _from_dict_or_value, Array.to_dict. simpl.
    now rewrite (@Template_round_trip t Ht). }
  assert (Ferror :
            _from_dict_or_value
              (Value match Collection.error c with
                     | Some e => PDict (Error.fields e)
                     | None => PNone
                     end) =
              Ok (option_map Error_reparsed (Collection.error c))).
  { destruct (Collection.error c) as [e|]; [|reflexivity].
    unfold _from_dict_or_value. simpl. now rewrite Error_round_trip. }
  destruct Hi as [Hclass Hname]. unfold Collection_reparsed.
  rewrite Hclass, Hname. clear Hclass Hname Hish Hl Hq Hqsh Ht.
  destruct c as [ver h e t its ls qs]; simpl in *.
  remember (PList (map Link.to_dict (Array.elems ls))) as plinks.
  remember (PList (map Item.to_dict (Array.elems its))) as pitems.
  remember (PList (map Query.to_dict (Array.elems qs))) as pqueries.
  remember (map Item_reparsed (Array.elems its)) as items'.
  clear Heqplinks Heqpitems Heqpqueries Heqitems'.
  unfold Collection.new, Collection.__init__, emitted.
  destruct (Array.__bool__ ls), (Array.__bool__ its), (Array.__bool__ qs).
  all: destruct t as [t|];
    [remember (Array.to_dict (Template.data t)) as ptemplate eqn:Hpt;
     clear Hpt|].
  all: destruct e as [e|];
    [remember (PDict (Error.fields e)) as perror eqn:Hpe; clear Hpe|].
  all: try (cbv in Flinks; injection Flinks as <-).
  all: try (cbv in Fitems; injection Fitems as <-).
  all: try (cbv in Fqueries; injection Fqueries as <-).
  all: simpl in *; eval_optional; rewrite ?Ferror; simpl; rewrite ?Ftemplate;
    simpl; rewrite ?Fitems; simpl; rewrite ?Flinks; simpl; rewrite ?Fqueries;
    reflexivity.
Qed.

Lemma Query_new_shaped (kw : pydict) (q : Query.t) :
  Query.new kw = Ok q -> Query_shaped q.
Proof.
  unfold Query.new, Query.__init__. intros Hq.
  bind_inv Hq. bind_inv Hq. bind_inv Hq. bind_inv Hq. injection Hq as <-.
  exact (from_iterable_shape _ _ Hx2).
Qed.

Lemma Item_new_shaped (kw : pydict) (i : Item.t) :
  Item.new kw = Ok i -> Item_shaped i.
Proof.
  unfold Item.new, Item.__init__. intros Hi.
  bind_inv Hi. bind_inv Hi. bind_inv Hi. injection Hi as <-.
  split; [exact (from_iterable_shape _ _ Hx0)|exact (from_iterable_shape _ _ Hx1)].
Qed.

Lemma Template_new_shaped (kw : pydict) (t : Template.t) :
  Template.new kw = Ok t -> Template_shaped t.
Proof.
  unfold Template.new, Template.__init__. intros Ht.
  bind_inv Ht. bind_inv Ht. injection Ht as <-.
  exact (from_iterable_shape _ _ Hx0).
Qed.

Lemma from_value_constructed {T : Type} `{Entity T} (v : pyval) (x : T) :
  _from_dict_or_value (Value v) = Ok (Some x) -> exists d, construct d = Ok x.
Proof.
  unfold _from_dict_or_value.
  destruct v; try discriminate. intros Hx. bind_inv Hx.
  injection Hx as <-. eauto.
Qed.

Lemma Collection_new_shaped (kw : pydict) (c : Collection.t) :
  Collection.new kw = Ok c -> Collection_shaped c.
Proof.
  unfold Collection.new, Collection.__init__. intros Hc.
  do 7 bind_inv Hc. injection Hc as <-.
  unfold Collection_shaped; simpl.
  split; [exact (from_iterable_shape _ _ Hx3)|].
  split; [|split; [exact (from_iterable_shape _ _ Hx4)|]].
  2: split; [exact (from_iterable_shape _ _ Hx5)|split].
  - apply from_values_constructed in Hx3. rewrite Forall_forall in *.
    intros i Hin. destruct (Hx3 i Hin) as (d & Hd).
    exact (Item_new_shaped _ Hd).
  - apply from_values_constructed in Hx5. rewrite Forall_forall in *.
    intros q Hin. destruct (Hx5 q Hin) as (d & Hd).
    exact (Query_new_shaped _ Hd).
  - destruct x2 as [t|]; [|exact I].
    apply from_value_constructed in Hx2 as (d & Hd).
    exact (Template_new_shaped _ Hd).
Qed.

Lemma from_loaded_constructed (D : pyval) (M : Collection.t) :
  Collection.from_loaded (Ok D) = Ok M -> exists kw, Collection.new kw = Ok M.
Proof.
  unfold Collection.from_loaded; simpl.
  destruct (py_get D "collection") as [kwargs|e]; simpl.
  - destruct (truthy kwargs); simpl; [|discriminate].
    destruct kwargs; try discriminate. simpl. eauto.
  - destruct e; discriminate.
Qed.

(** Serializing a parsed collection and parsing the result gives the
    collection with the [href]s of its items and the fields of its error
    parsed back. *)
Lemma round_trip_reparsed (D : pyval) (M : Collection.t) :
  Collection.from_loaded (Ok D) = Ok M ->
  Collection.from_loaded (Ok (Collection.to_dict M)) =
    Ok (Collection_reparsed M).
Proof.
  intros HM. apply from_loaded_constructed in HM as (kw & HM).
  apply Collection_new_shaped in HM.
  pose proof (@Collection_new_round_trip M HM) as Hnew.
  destruct HM as (Hi & _ & Hl & Hq & _).
  unfold Collection.from_loaded, Collection.to_dict, Collection.entries.
  rewrite (@Collection_fields_shape _ Hl Hi Hq) in *.
  simpl. exact Hnew.
Qed.

(* --------------------------------------------------------------------- *)
(** *** When nothing is lost *)

Lemma reparsed_field_kept (v : pyval) :
  kept v = true -> reparsed_field v = v.
Proof.
  unfold kept, reparsed_field. destruct (truthy v); [reflexivity|].
  rewrite orb_false_r. intros Hv. apply is_None_true in Hv. now subst.
Qed.

Lemma Item_reparsed_kept (i : Item.t) :
  Item_kept i = true -> Item_reparsed i = i.
Proof.
  destruct i as [h a l]. unfold Item_kept, Item_reparsed; simpl.
  intros Hh. now rewrite reparsed_field_kept.
Qed.

Lemma Error_reparsed_kept (e : Error.t) :
  Error_kept e = true -> Error_reparsed e = e.
Proof.
  destruct e as [c m t]. unfold Error_kept, Error_reparsed; simpl.
  intros He. apply andb_true_iff in He as [He Ht].
  apply andb_true_iff in He as [Hc Hm].
  now rewrite !reparsed_field_kept.
Qed.

Lemma Collection_reparsed_kept (c : Collection.t) :
  Collection_kept c = true -> Collection_reparsed c = c.
Proof.
  destruct c as [ver h e t [ic cn its] ls qs].
  unfold Collection_kept, Collection_reparsed; simpl.
  intros Hc. apply andb_true_iff in Hc as [Hits He].
  assert (Hmap : map Item_reparsed its = its).
  { induction its as [|i its IH]; simpl in *; [reflexivity|].
    apply andb_true_iff in Hits as [Hi Hits].
    now rewrite Item_reparsed_kept, IH. }
  rewrite Hmap. destruct e as [e|]; simpl; [|reflexivity].
  now rewrite Error_reparsed_kept.
Qed.

(** Serializing a parsed collection without empty fields and parsing the
    result gives the same collection. *)
Lemma round_trip_same_model (D : pyval) (M : Collection.t) :
  Collection.from_loaded (Ok D) = Ok M ->
  Collection_kept M = true ->
  Collection.from_loaded (Ok (Collection.to_dict M)) = Ok M.
Proof.
  intros HM Hkept. rewrite (@round_trip_reparsed D M HM).
  now rewrite Collection_reparsed_kept.
Qed.

(* --------------------------------------------------------------------- *)
(** *** When something is lost *)

Lemma py_eqb_None (v : pyval) : py_eqb PNone v = true -> v = PNone.
Proof. destruct v; simpl; congruence. Qed.

Lemma reparsed_field_equal (v : pyval) :
  py_eqb (reparsed_field v) v = true -> kept v = true.
Proof.
  unfold kept, reparsed_field. destruct (truthy v).
  - intros _. apply orb_true_r.
  - intros Hv. apply py_eqb_None in Hv. now subst.
Qed.

Lemma Item_reparsed_equal (i : Item.t) :
  Item.__eq__ (Item_reparsed i) i = true -> Item_kept i = true.
Proof.
  unfold Item.__eq__, Item_reparsed, Item_kept; simpl. intros Hi.
  apply andb_true_iff in Hi as [Hi _]. apply andb_true_iff in Hi as [Hi _].
  now apply reparsed_field_equal.
Qed.

Lemma Error_reparsed_equal (e : Error.t) :
  Error.__eq__ (Error_reparsed e) e = true -> Error_kept e = true.
Proof.
  unfold Error.__eq__, Error_reparsed, Error_kept; simpl. intros He.
  apply andb_true_iff in He as [He Ht]. apply andb_true_iff in He as [Hc Hm].
  now rewrite !reparsed_field_equal.
Qed.

Lemma Collection_reparsed_equal (c : Collection.t) :
  Collection.__eq__ (Collection_reparsed c) c = true ->
  Collection_kept c = true.
Proof.
  destruct c as [ver h e t [ic cn its] ls qs].
  unfold Collection.__eq__, Collection_reparsed, Collection_kept; simpl.
  intros Hc.
  apply andb_true_iff in Hc as [Hc _]. apply andb_true_iff in Hc as [Hc _].
  apply andb_true_iff in Hc as [Hc Hits]. apply andb_true_iff in Hc as [Hc _].
  apply andb_true_iff in Hc as [_ He].
  apply andb_true_iff. split.
  - unfold Array.__eq__ in Hits; simpl in Hits.
    apply andb_true_iff in Hits as [_ Hits].
    induction its as [|i its IH]; simpl in *; [reflexivity|].
    apply andb_true_iff in Hits as [Hi Hits].
    now rewrite (@Item_reparsed_equal i Hi), IH.
  - destruct e as [e|]; simpl in *; [|reflexivity].
    now apply Error_reparsed_equal.
Qed.

(** The same on texts, for any decoder that reads back what the encoder
    writes. *)
Section Text.
Variable json_loads : string -> result pyval.
Variable json_dumps : pyval -> string.
Hypothesis loads_dumps : forall v, json_loads (json_dumps v) = Ok v.

Lemma round_trip_through_text (data : string) (M : Collection.t) :
  Collection.from_json json_loads data = Ok M ->
  Collection_kept M = true ->
  Collection.from_json json_loads (Collection.__str__ json_dumps M) = Ok M.
Proof.
  unfold Collection.from_json, Collection.__str__. intros HM Hkept.
  rewrite loads_dumps.
  destruct (json_loads data) as [D|e].
  - exact (round_trip_same_model _ HM Hkept).
  - unfold Collection.from_loaded in HM. simpl in HM.
    destruct e; discriminate.
Qed.

End Text.

(* ===================================================================== *)
(** ** Reflexivity of [==] *)
(* ===================================================================== *)

Lemma pyval_induction (P : pyval -> Prop) :
  P PNone ->
  (forall b, P (PBool b)) ->
  (forall n, P (PInt n)) ->
  (forall s, P (PStr s)) ->
  (forall l, Forall P l -> P (PList l)) ->
  (forall d, Forall (fun kv => P (snd kv)) d -> P (PDict d)) ->
  forall v, P v.
Proof.
  intros HNone HBool HInt HStr HList HDict.
  fix IH 1. intros [|b|n|s|l|d].
  - exact HNone.
  - apply HBool.
  - apply HInt.
  - apply HStr.
  - apply HList. induction l as [|x l IHl]; constructor; [apply IH|exact IHl].
  - apply HDict. induction d as [|[k x] d IHd]; constructor;
      [apply IH|exact IHd].
Qed.

Lemma py_eqb_list (x y : list pyval) :
  py_eqb (PList x) (PList y) =
    Nat.eqb (length x) (length y) &&
    forallb (fun uw => py_eqb (fst uw) (snd uw)) (combine x y).
Proof.
  revert y. induction x as [|u x IH]; intros [|w y]; simpl; try reflexivity.
  specialize (IH y). simpl in IH. rewrite IH.
  now destruct (py_eqb u w), (Nat.eqb (length x) (length y)).
Qed.

Lemma py_eqb_dict (x y : pydict) :
  py_eqb (PDict x) (PDict y) =
    Nat.eqb (length x) (length y) &&
    forallb (fun kv => match dict_get (fst kv) y with
                       | Some w => py_eqb (snd kv) w
                       | None => false
                       end) x.
Proof.
  simpl. f_equal. induction x as [|[k u] x IH]; simpl; [reflexivity|].
  now rewrite IH.
Qed.

Lemma dict_get_distinct (d : pydict) (k : string) (u : pyval) :
  distinct (map fst d) = true -> In (k, u) d -> dict_get k d = Some u.
Proof.
  induction d as [|[k' u'] d IH]; simpl; [intros _ []|].
  intros Hd [Heq|Hin].
  - injection Heq as -> ->. now rewrite String.eqb_refl.
  - apply andb_true_iff in Hd as [Hk' Hd].
    destruct (String.eqb_spec k k') as [->|Hne]; [|auto].
    apply negb_true_iff in Hk'.
    assert (Hex : existsb (String.eqb k') (map fst d) = true).
    { apply existsb_exists. exists k'. split.
      - apply in_map_iff. now exists (k', u).
      - apply String.eqb_refl. }
    congruence.
Qed.

Lemma py_eqb_refl (v : pyval) : unique_keys v = true -> py_eqb v v = true.
Proof.
  induction v as [|b|n|s|l IHl|d IHd] using pyval_induction; intros Hv.
  - reflexivity.
  - simpl. now destruct b.
  - simpl. apply Z.eqb_refl.
  - simpl. apply String.eqb_refl.
  - rewrite py_eqb_list, Nat.eqb_refl. simpl in *.
    induction l as [|x l IH]; simpl; [reflexivity|].
    apply andb_true_iff in Hv as [Hx Hl].
    inversion IHl as [|? ? Px Pl]; subst.
    rewrite (Px Hx). simpl. now apply IH.
  - rewrite py_eqb_dict, Nat.eqb_refl. simpl in *.
    apply andb_true_iff in Hv as [Hkeys Hvals].
    apply forallb_forall. intros [k u] Hin. simpl.
    rewrite (@dict_get_distinct d k u Hkeys Hin).
    rewrite Forall_forall in IHd. rewrite forallb_forall in Hvals.
    exact (IHd (k, u) Hin (Hvals (k, u) Hin)).
Qed.

Lemma Array_eq_refl {T : Type} `{Entity T} (u : T -> bool) (a : Array.t T) :
  (forall x, u x = true -> equal x x = true) ->
  forallb u (Array.elems a) = true -> Array.__eq__ a a = true.
Proof.
  intros Hrefl Ha. unfold Array.__eq__, cls_eqb.
  rewrite !String.eqb_refl. simpl.
  induction (Array.elems a) as [|x xs IH]; simpl in *; [reflexivity|].
  apply andb_true_iff in Ha as [Hx Hxs].
  rewrite (Hrefl x Hx). simpl. auto.
Qed.

Ltac split_unique H :=
  repeat match type of H with
         | _ && _ = true =>
             let H' := fresh "U" in apply andb_true_iff in H as [H H']
         end.

Lemma Data_eq_refl (d : Data.t) : Data_unique d = true -> Data.__eq__ d d = true.
Proof.
  unfold Data_unique, Data.__eq__. intros U. split_unique U.
  now rewrite !py_eqb_refl.
Qed.

Lemma Link_eq_refl (l : Link.t) : Link_unique l = true -> Link.__eq__ l l = true.
Proof.
  unfold Link_unique, Link.__eq__. intros U. split_unique U.
  now rewrite !py_eqb_refl.
Qed.

Lemma Error_eq_refl (e : Error.t) :
  Error_unique e = true -> Error.__eq__ e e = true.
Proof.
  unfold Error_unique, Error.__eq__. intros U. split_unique U.
  now rewrite !py_eqb_refl.
Qed.

Lemma Query_eq_refl (q : Query.t) :
  Query_unique q = true -> Query.__eq__ q q = true.
Proof.
  unfold Query_unique, Query.__eq__. intros U. split_unique U.
  rewrite !py_eqb_refl by assumption.
  now rewrite (@Array_eq_refl _ Data_Entity Data_unique _ Data_eq_refl).
Qed.

Lemma Item_eq_refl (i : Item.t) : Item_unique i = true -> Item.__eq__ i i = true.
Proof.
  unfold Item_unique, Item.__eq__. intros U. split_unique U.
  rewrite !py_eqb_refl by assumption.
  rewrite (@Array_eq_refl _ Data_Entity Data_unique _ Data_eq_refl) by assumption.
  now rewrite (@Array_eq_refl _ Link_Entity Link_unique _ Link_eq_refl).
Qed.

Lemma Template_eq_refl (t : Template.t) :
  Template_unique t = true -> Template.__eq__ t t = true.
Proof.
  unfold Template_unique, Template.__eq__. intros U.
  now rewrite (@Array_eq_refl _ Data_Entity Data_unique _ Data_eq_refl).
Qed.

Lemma Collection_eq_refl (c : Collection.t) :
  Collection_unique c = true -> Collection.__eq__ c c = true.
Proof.
  unfold Collection_unique, Collection.__eq__. intros U. split_unique U.
  rewrite !py_eqb_refl by assumption.
  rewrite (@Array_eq_refl _ Item_Entity Item_unique _ Item_eq_refl) by assumption.
  rewrite (@Array_eq_refl _ Link_Entity Link_unique _ Link_eq_refl) by assumption.
  rewrite (@Array_eq_refl _ Query_Entity Query_unique _ Query_eq_refl) by assumption.
  destruct (Collection.error c) as [e|], (Collection.template c) as [t|];
    simpl; rewrite ?Error_eq_refl, ?Template_eq_refl by assumption;
    reflexivity.
Qed.

(* --------------------------------------------------------------------- *)
(** *** A model keeps the keys of its document distinct *)

Lemma dict_get_unique (k : string) (d : pydict) (v : pyval) :
  values_unique d = true -> dict_get k d = Some v -> unique_keys v = true.
Proof.
  unfold values_unique. induction d as [|[k' v'] d IH]; simpl; [discriminate|].
  intros Hd. apply andb_true_iff in Hd as [Hv' Hd].
  destruct (k =? k')%string; [|auto]. now intros [= <-].
Qed.

Lemma optional_unique (k : string) (d : pydict) :
  values_unique d = true -> unique_keys (optional k d) = true.
Proof.
  intros Hd. unfold optional. destruct (dict_get k d) as [v|] eqn:Ev.
  - exact (dict_get_unique _ _ Hd Ev).
  - reflexivity.
Qed.

Lemma required_unique (callee k : string) (d : pydict) (v : pyval) :
  values_unique d = true -> required callee k d = Ok v -> unique_keys v = true.
Proof.
  intros Hd. unfold required. destruct (dict_get k d) as [w|] eqn:Ew.
  - intros [= <-]. exact (dict_get_unique _ _ Hd Ew).
  - discriminate.
Qed.

Lemma py_iter_unique (v : pyval) (l : list pyval) :
  unique_keys v = true -> py_iter v = Ok l -> forallb unique_keys l = true.
Proof.
  destruct v; simpl; try discriminate; intros Hv [= <-].
  - apply forallb_forall. intros x Hx. apply in_map_iff in Hx as (c & <- & _).
    reflexivity.
  - exact Hv.
  - apply forallb_forall. intros x Hx. apply in_map_iff in Hx as (kv & <- & _).
    reflexivity.
Qed.

Section Unique.
Context {T : Type} `{Entity T}.
Variable unique : T -> bool.
Hypothesis construct_unique :
  forall d x, values_unique d = true -> construct d = Ok x -> unique x = true.

Lemma build_items_unique (c : cls) (vs : list pyval) (xs : list T) :
  forallb unique_keys vs = true ->
  Array._build_items c (map Raw vs) = Ok xs -> forallb unique xs = true.
Proof.
  revert xs. induction vs as [|v vs IH]; simpl; intros xs Hvs Hxs.
  - now injection Hxs as <-.
  - apply andb_true_iff in Hvs as [Hv Hvs].
    bind_inv Hxs. bind_inv Hxs. injection Hxs as <-. simpl.
    rewrite (IH _ Hvs Hx0), andb_true_r.
    destruct v; try discriminate. simpl in Hv.
    apply andb_true_iff in Hv as [_ Hd]. eauto.
Qed.

Lemma from_values_unique (name : string) (v : pyval) (a : Array.t T) :
  unique_keys v = true ->
  _from_iterable_to_array name (Values v) = Ok a ->
  forallb unique (Array.elems a) = true.
Proof.
  unfold _from_iterable_to_array. intros Hv Ha.
  assert (Hinit : exists vs, forallb unique_keys vs = true /\
                             Array.__init__ name (map Raw vs) = Ok a).
  { destruct (is_None v) eqn:Ev.
    - apply is_None_true in Ev. subst v. now exists [].
    - assert (Hb : (items <- py_iter v ;; Array.__init__ name (map Raw items))
                   = Ok a) by (destruct v; try discriminate; exact Ha).
      bind_inv Hb. exists x. split; [|exact Hb].
      exact (py_iter_unique _ Hv Hx). }
  destruct Hinit as (vs & Hvs & Hinit).
  apply Array_init_shape in Hinit as (xs & Hxs & ->). simpl.
  exact (build_items_unique _ _ Hvs Hxs).
Qed.

Lemma from_value_unique (v : pyval) (x : option T) :
  unique_keys v = true ->
  _from_dict_or_value (Value v) = Ok x ->
  match x with Some x => unique x | None => true end = true.
Proof.
  unfold _from_dict_or_value. intros Hv Hx.
  destruct v; try discriminate.
  - now injection Hx as <-.
  - bind_inv Hx. injection Hx as <-. simpl in Hv.
    apply andb_true_iff in Hv as [_ Hd]. eauto.
Qed.

End Unique.

Lemma Data_new_unique (kw : pydict) (d : Data.t) :
  values_unique kw = true -> Data.new kw = Ok d -> Data_unique d = true.
Proof.
  unfold Data.new, Data_unique. intros Hkw Hd.
  bind_inv Hd. bind_inv Hd. injection Hd as <-. simpl.
  now rewrite (required_unique _ _ _ Hkw Hx0), !optional_unique.
Qed.

Lemma Link_new_unique (kw : pydict) (l : Link.t) :
  values_unique kw = true -> Link.new kw = Ok l -> Link_unique l = true.
Proof.
  unfold Link.new, Link_unique. intros Hkw Hl.
  bind_inv Hl. bind_inv Hl. bind_inv Hl. injection Hl as <-. simpl.
  now rewrite (required_unique _ _ _ Hkw Hx0), (required_unique _ _ _ Hkw Hx1),
    !optional_unique.
Qed.

Lemma Error_new_unique (kw : pydict) (e : Error.t) :
  values_unique kw = true -> Error.new kw = Ok e -> Error_unique e = true.
Proof.
  unfold Error.new, Error_unique. intros Hkw He.
  bind_inv He. injection He as <-. simpl. now rewrite !optional_unique.
Qed.

Lemma Query_new_unique (kw : pydict) (q : Query.t) :
  values_unique kw = true -> Query.new kw = Ok q -> Query_unique q = true.
Proof.
  unfold Query.new, Query.__init__, Query_unique. intros Hkw Hq.
  bind_inv Hq. bind_inv Hq. bind_inv Hq. bind_inv Hq. injection Hq as <-.
  simpl.
  rewrite (required_unique _ _ _ Hkw Hx0), (required_unique _ _ _ Hkw Hx1),
    !optional_unique by assumption. simpl.
  exact (@from_values_unique Data.t Data_Entity Data_unique Data_new_unique _ _ _
           (optional_unique "data" _ Hkw) Hx2).
Qed.

Lemma Item_new_unique (kw : pydict) (i : Item.t) :
  values_unique kw = true -> Item.new kw = Ok i -> Item_unique i = true.
Proof.
  unfold Item.new, Item.__init__, Item_unique. intros Hkw Hi.
  bind_inv Hi. bind_inv Hi. bind_inv Hi. injection Hi as <-. simpl.
  rewrite optional_unique by assumption. simpl.
  rewrite (@from_values_unique Data.t Data_Entity Data_unique Data_new_unique _ _ _
             (optional_unique "data" _ Hkw) Hx0). simpl.
  exact (@from_values_unique Link.t Link_Entity Link_unique Link_new_unique _ _ _
           (optional_unique "links" _ Hkw) Hx1).
Qed.

Lemma Template_new_unique (kw : pydict) (t : Template.t) :
  values_unique kw = true -> Template.new kw = Ok t -> Template_unique t = true.
Proof.
  unfold Template.new, Template.__init__, Template_unique. intros Hkw Ht.
  bind_inv Ht. bind_inv Ht. injection Ht as <-. simpl.
  exact (@from_values_unique Data.t Data_Entity Data_unique Data_new_unique _ _ _
           (optional_unique "data" _ Hkw) Hx0).
Qed.

Lemma Collection_new_unique (kw : pydict) (c : Collection.t) :
  values_unique kw = true -> Collection.new kw = Ok c ->
  Collection_unique c = true.
Proof.
  unfold Collection.new, Collection.__init__, Collection_unique.
  intros Hkw Hc. do 7 bind_inv Hc. injection Hc as <-. simpl.
  rewrite (required_unique _ _ _ Hkw Hx0). simpl.
  assert (Hversion : unique_keys match dict_get "version" kw with
                                 | Some v => v
                                 | None => PStr "1.0"
                                 end = true).
  { destruct (dict_get "version" kw) as [v|] eqn:Ev; [|reflexivity].
    exact (dict_get_unique _ _ Hkw Ev). }
  rewrite Hversion. simpl.
  rewrite (@from_value_unique Error.t Error_Entity Error_unique Error_new_unique _ _
             (optional_unique "error" _ Hkw) Hx1). simpl.
  rewrite (@from_value_unique Template.t Template_Entity Template_unique Template_new_unique
             _ _ (optional_unique "template" _ Hkw) Hx2). simpl.
  rewrite (@from_values_unique Item.t Item_Entity Item_unique Item_new_unique _ _ _
             (optional_unique "items" _ Hkw) Hx3). simpl.
  rewrite (@from_values_unique Link.t Link_Entity Link_unique Link_new_unique _ _ _
             (optional_unique "links" _ Hkw) Hx4). simpl.
  exact (@from_values_unique Query.t Query_Entity Query_unique Query_new_unique _ _ _
           (optional_unique "queries" _ Hkw) Hx5).
Qed.

Lemma from_loaded_unique (D : pyval) (M : Collection.t) :
  unique_keys D = true -> Collection.from_loaded (Ok D) = Ok M ->
  Collection_unique M = true.
Proof.
  unfold Collection.from_loaded; simpl. intros HD.
  destruct D; simpl; try discriminate.
  simpl in HD. apply andb_true_iff in HD as [_ Hd].
  pose proof (optional_unique "collection" _ Hd) as Hkw.
  destruct (optional "collection" d) as [| | | | |kw]; simpl; try discriminate.
  - destruct b; discriminate.
  - destruct (negb (n =? 0)); discriminate.
  - destruct (negb (s =? "")%string); discriminate.
  - destruct l; discriminate.
  - destruct kw as [|kv kw]; simpl; [discriminate|].
    simpl in Hkw. apply andb_true_iff in Hkw as [_ Hkw].
    now apply Collection_new_unique.
Qed.

(* ===================================================================== *)
(** ** What the constructors raise *)
(* ===================================================================== *)

Lemma bind_Raise {A B : Type} (r : result A) (k : A -> result B) (e : exn) :
  bind r k = Raise e -> r = Raise e \/ exists x, r = Ok x /\ k x = Raise e.
Proof. destruct r as [x|e']; simpl; [eauto|]. intros [= ->]. now left. Qed.

Lemma check_keywords_raises (callee : string) (params : list string)
    (kw : pydict) (e : exn) :
  check_keywords callee params kw = Raise e -> raised_by_constructor e.
Proof.
  unfold check_keywords.
  destruct (find _ kw) as [[k v]|]; [|discriminate].
  destruct (k =? "self")%string; now intros [= <-].
Qed.

Lemma required_raises (callee param : string) (kw : pydict) (e : exn) :
  required callee param kw = Raise e -> raised_by_constructor e.
Proof.
  unfold required. destruct (dict_get param kw); [discriminate|].
  now intros [= <-].
Qed.

Ltac raise_cases H :=
  repeat match type of H with
         | bind _ _ = Raise _ =>
             let x := fresh "x" in
             let Hx := fresh "Hx" in
             apply bind_Raise in H as [H|(x & Hx & H)]
         end.

Section Raises.
Context {T : Type} `{Entity T}.
Hypothesis construct_raises :
  forall d e, construct d = Raise e -> raised_by_constructor e.

Lemma build_items_raises (c : cls) (vs : list pyval) (e : exn) :
  Array._build_items c (map Raw vs) = Raise e -> raised_by_constructor e.
Proof.
  induction vs as [|v vs IH]; simpl; [discriminate|]. intros He.
  apply bind_Raise in He as [He|(x & Hx & He)].
  - destruct v; try (injection He as <-; exact I). eauto.
  - apply bind_Raise in He as [He|(xs & Hxs & He)]; [auto|discriminate].
Qed.

Lemma from_values_raises (name : string) (v : pyval) (e : exn) :
  _from_iterable_to_array name (Values v) = Raise e -> raised_by_constructor e.
Proof.
  unfold _from_iterable_to_array, Array.__init__. intros He.
  assert (Hcases : (exists vs, Array._build_items class_of (map Raw vs) = Raise e)
                   \/ e = TypeError (NotIterable v)).
  { destruct v; simpl in He; try discriminate He; try (right; congruence);
      left.
    - exists (map PStr (characters s)).
      raise_cases He; [assumption|discriminate].
    - exists l. raise_cases He; [assumption|discriminate].
    - exists (map (fun kv => PStr (fst kv)) d).
      raise_cases He; [assumption|discriminate]. }
  destruct Hcases as [(vs & Hvs)| ->]; [|exact I].
  now apply build_items_raises in Hvs.
Qed.

Lemma from_value_raises (v : pyval) (e : exn) :
  _from_dict_or_value (Value v) = Raise e -> raised_by_constructor e.
Proof.
  unfold _from_dict_or_value.
  destruct v; try discriminate; try (now intros [= <-]).
  intros He. raise_cases He; [eauto|discriminate].
Qed.

End Raises.

Lemma Data_new_raises (kw : pydict) (e : exn) :
  Data.new kw = Raise e -> raised_by_constructor e.
Proof.
  unfold Data.new. intros He. raise_cases He; try discriminate.
  - now apply check_keywords_raises in He.
  - now apply required_raises in He.
Qed.

Lemma Link_new_raises (kw : pydict) (e : exn) :
  Link.new kw = Raise e -> raised_by_constructor e.
Proof.
  unfold Link.new. intros He. raise_cases He; try discriminate.
  - now apply check_keywords_raises in He.
  - now apply required_raises in He.
  - now apply required_raises in He.
Qed.

Lemma Error_new_raises (kw : pydict) (e : exn) :
  Error.new kw = Raise e -> raised_by_constructor e.
Proof.
  unfold Error.new. intros He. raise_cases He; try discriminate.
  now apply check_keywords_raises in He.
Qed.

Lemma Query_new_raises (kw : pydict) (e : exn) :
  Query.new kw = Raise e -> raised_by_constructor e.
Proof.
  unfold Query.new, Query.__init__. intros He.
  raise_cases He; try discriminate.
  - now apply check_keywords_raises in He.
  - now apply required_raises in He.
  - now apply required_raises in He.
  - exact (@from_values_raises _ Data_Entity Data_new_raises _ _ _ He).
Qed.

Lemma Item_new_raises (kw : pydict) (e : exn) :
  Item.new kw = Raise e -> raised_by_constructor e.
Proof.
  unfold Item.new, Item.__init__. intros He.
  raise_cases He; try discriminate.
  - now apply check_keywords_raises in He.
  - exact (@from_values_raises _ Data_Entity Data_new_raises _ _ _ He).
  - exact (@from_values_raises _ Link_Entity Link_new_raises _ _ _ He).
Qed.

Lemma Template_new_raises (kw : pydict) (e : exn) :
  Template.new kw = Raise e -> raised_by_constructor e.
Proof.
  unfold Template.new, Template.__init__. intros He.
  raise_cases He; try discriminate.
  - now apply check_keywords_raises in He.
  - exact (@from_values_raises _ Data_Entity Data_new_raises _ _ _ He).
Qed.

Lemma Collection_new_raises (kw : pydict) (e : exn) :
  Collection.new kw = Raise e -> raised_by_constructor e.
Proof.
  unfold Collection.new, Collection.__init__. intros He.
  raise_cases He; try discriminate.
  - now apply check_keywords_raises in He.
  - now apply required_raises in He.
  - exact (@from_value_raises _ Error_Entity Error_new_raises _ _ He).
  - exact (@from_value_raises _ Template_Entity Template_new_raises _ _ He).
  - exact (@from_values_raises _ Item_Entity Item_new_raises _ _ _ He).
  - exact (@from_values_raises _ Link_Entity Link_new_raises _ _ _ He).
  - exact (@from_values_raises _ Query_Entity Query_new_raises _ _ _ He).
Qed.

Lemma call_with_raises {T : Type} (callee : pydict -> result T)
    (kwargs : pyval) (e : exn) :
  (forall kw e, callee kw = Raise e -> raised_by_constructor e) ->
  call_with callee kwargs = Raise e -> raised_by_constructor e.
Proof.
  intros Hcallee. unfold call_with.
  destruct kwargs; try (now intros [= <-]). apply Hcallee.
Qed.

(** The [try] block and the call after it, for the key [key], the
    message [text] of the [except] clause and the constructor
    [callee]. *)
Lemma from_loaded_format_error {T : Type} (key text : string)
    (callee : pydict -> result T) (loaded : result pyval) :
  (forall kw e, callee kw = Raise e -> raised_by_constructor e) ->
  match (data <- loaded ;;
         kwargs <- py_get data key ;;
         if negb (truthy kwargs) then Raise (ValueError NoMessage)
         else Ok kwargs) with
  | Raise (ValueError _) => Raise (ValueError (Msg text))
  | Raise e => Raise e
  | Ok kwargs => call_with callee kwargs
  end = Raise (ValueError (Msg text)) <->
  (exists m, loaded = Raise (ValueError m)) \/
  (exists d, loaded = Ok (PDict d) /\ truthy (optional key d) = false).
Proof.
  intros Hcallee. split.
  - destruct loaded as [data|e]; simpl.
    + destruct data; simpl; try discriminate.
      destruct (truthy (optional key d)) eqn:Et; simpl; [|eauto].
      intros He. apply (@call_with_raises _ callee _ _ Hcallee) in He.
      destruct He.
    + destruct e; try discriminate. eauto.
  - intros [(m & ->)|(d & -> & Hd)]; simpl; [reflexivity|].
    now rewrite Hd.
Qed.

(* ===================================================================== *)
(** ** Parsing a document *)
(* ===================================================================== *)

(** C7. [from_json] on the outcome of [json.loads]: the [ValueError]
    "Not a valid Collection+JSON document." is raised exactly when the
    text is no JSON or decodes to an object whose [collection] entry is
    missing or false; [Template.from_json] does the same with [template]
    and its own message; a non-empty object under the key is handed to
    the constructor as keyword arguments.  A text that decodes to
    something else than an object, such as [[]], ends in the
    [AttributeError] of [data.get] instead. *)
Theorem from_json_format_error :
  (forall loaded,
     Collection.from_loaded loaded =
       Raise (ValueError (Msg "Not a valid Collection+JSON document.")) <->
     (exists m, loaded = Raise (ValueError m)) \/
     (exists d, loaded = Ok (PDict d) /\
                truthy (optional "collection" d) = false)) /\
  (forall loaded,
     Template.from_loaded loaded =
       Raise (ValueError (Msg "Not valid Collection+JSON template data.")) <->
     (exists m, loaded = Raise (ValueError m)) \/
     (exists d, loaded = Ok (PDict d) /\
                truthy (optional "template" d) = false)) /\
  (forall d k v kw,
     dict_get "collection" d = Some (PDict ((k, v) :: kw)) ->
     Collection.from_loaded (Ok (PDict d)) = Collection.new ((k, v) :: kw)) /\
  (forall d k v kw,
     dict_get "template" d = Some (PDict ((k, v) :: kw)) ->
     Template.from_loaded (Ok (PDict d)) = Template.new ((k, v) :: kw)) /\
  Collection.from_loaded (Ok (PList [])) =
    Raise (AttributeError (NoAttribute (PList []) "get")) /\
  Template.from_loaded (Ok (PList [])) =
    Raise (AttributeError (NoAttribute (PList []) "get")) /\
  (forall json_loads data,
     Collection.from_json json_loads data =
       Collection.from_loaded (json_loads data)) /\
  (forall json_loads data,
     Template.from_json json_loads data =
       Template.from_loaded (json_loads data)).
Proof.
  split; [|split; [|split; [|split]]].
  - intros loaded.
    exact (from_loaded_format_error "collection"
             "Not a valid Collection+JSON document." Collection.new loaded
             Collection_new_raises).
  - intros loaded.
    exact (from_loaded_format_error "template"
             "Not valid Collection+JSON template data." Template.new loaded
             Template_new_raises).
  - intros d k v kw Hd.
    unfold Collection.from_loaded, py_get, optional, bind.
    now rewrite Hd.
  - intros d k v kw Hd.
    unfold Template.from_loaded, py_get, optional, bind.
    now rewrite Hd.
  - repeat split; reflexivity.
Qed.

(* ===================================================================== *)
(** ** The round trip *)
(* ===================================================================== *)

(** C1, as stated, fails: the document whose error has the code [""]
    parses, but its serialized form has no [code] any more, so that
    parsing it again gives an error whose code is [None]; the two models
    are not equal. *)
Lemma empty_error_code_is_not_round_tripped :
  Collection.from_loaded (Ok empty_code_document) = Ok empty_code_collection /\
  Collection.to_dict empty_code_collection =
    PDict [("collection",
            PDict [("version", PStr "1.0"); ("href", PStr "/h");
                   ("error", PDict [])])] /\
  Collection.from_loaded (Ok (Collection.to_dict empty_code_collection)) =
    Ok no_code_collection /\
  Collection.__eq__ no_code_collection empty_code_collection = false /\
  no_code_collection <> empty_code_collection.
Proof. repeat split; try reflexivity. discriminate. Qed.

(** C1, amended. Let the decoded document [D], in which no dict repeats
    a key, parse into the model [M].  Then the serialized form of [M]
    parses again, into a model [M'] that is equal to [M] under [==]
    exactly when no item of [M] has a false [href] other than [None] and
    its error has no false [code], [message] or [title] other than
    [None]; in that case [M'] is [M] itself.  (Encoding [to_dict]'s
    result as text and decoding it gives the same value.) *)
Theorem round_trip_when_fields_kept (D : pyval) (M : Collection.t) :
  unique_keys D = true ->
  Collection.from_loaded (Ok D) = Ok M ->
  exists M',
    Collection.from_loaded (Ok (Collection.to_dict M)) = Ok M' /\
    (Collection.__eq__ M' M = true <-> Collection_kept M = true) /\
    (Collection_kept M = true -> M' = M).
Proof.
  intros HD HM. exists (Collection_reparsed M).
  split; [exact (@round_trip_reparsed D M HM)|].
  split; [split|].
  - apply Collection_reparsed_equal.
  - intros Hkept. rewrite (@Collection_reparsed_kept M Hkept).
    exact (@Collection_eq_refl M (@from_loaded_unique D M HD HM)).
  - apply Collection_reparsed_kept.
Qed.

(** The specification's end-to-end document. *)
Lemma round_trip_when_fields_kept_witness :
  unique_keys sample_document = true /\
  Collection.from_loaded (Ok sample_document) = Ok sample_collection /\
  Collection.from_loaded (Ok (Collection.to_dict sample_collection)) =
    Ok sample_collection /\
  Collection.__eq__ sample_collection sample_collection = true.
Proof.
  split; [reflexivity|]. split; [reflexivity|].
  destruct (@round_trip_when_fields_kept sample_document sample_collection
              eq_refl eq_refl) as (M' & Hparse & Heq & Hsame).
  rewrite (Hsame eq_refl) in Hparse, Heq.
  split; [exact Hparse|]. apply Heq. reflexivity.
Defined.

(* ===================================================================== *)
(** ** Further properties: construction *)
(* ===================================================================== *)

Lemma build_items_accepts {T : Type} `{Entity T} (c : cls)
    (items : list (item_arg T)) (xs : list T) :
  Array._build_items c items = Ok xs <-> Forall2 accepted_as items xs.
Proof.
  revert xs. induction items as [|item items IH]; simpl; intros xs.
  - split.
    + intros [= <-]. constructor.
    + intros Hxs. inversion Hxs. reflexivity.
  - split.
    + intros Hxs. bind_inv Hxs. bind_inv Hxs. injection Hxs as <-.
      constructor; [|now apply IH].
      destruct item as [y|v]; simpl.
      * now injection Hx as <-.
      * destruct v; try discriminate. exact Hx.
    + intros Hxs. inversion Hxs as [|? x ? xs' Hitem Hrest]; subst.
      apply IH in Hrest. rewrite Hrest.
      destruct item as [y|v]; simpl in *.
      * now subst.
      * destruct v; try contradiction. now rewrite Hitem.
Qed.

(** X1. [Array(cls, name, items)] succeeds exactly when every element is
    an instance of the item class or a dict from which the class
    constructs an object; the array then holds, in the order given and
    one per element, the instances themselves and the constructed
    objects, under the item class and the name given. *)
Theorem Array_init_accepts {T : Type} `{Entity T} (name : string)
    (items : list (item_arg T)) (a : Array.t T) :
  (Array.__init__ name items = Ok a <->
   exists xs, a = Array.mk class_of name xs /\ Forall2 accepted_as items xs) /\
  (Array.__init__ name items = Ok a ->
   length (Array.elems a) = length items).
Proof.
  assert (Hiff : Array.__init__ name items = Ok a <->
                 exists xs, a = Array.mk class_of name xs /\
                            Forall2 accepted_as items xs).
  { unfold Array.__init__. split.
    - intros Ha. bind_inv Ha. injection Ha as <-.
      exists x. split; [reflexivity|]. now apply (build_items_accepts class_of).
    - intros (xs & -> & Hxs). apply (build_items_accepts class_of) in Hxs.
      now rewrite Hxs. }
  split; [exact Hiff|].
  intros Ha. apply Hiff in Ha as (xs & -> & Hxs). simpl.
  symmetry. exact (Forall2_length Hxs).
Qed.

Lemma build_items_instances {T : Type} `{Entity T} (c : cls) (xs : list T) :
  Array._build_items c (map Instance xs) = Ok xs.
Proof. induction xs as [|x xs IH]; simpl; [reflexivity|now rewrite IH]. Qed.

(** X2. A [Collection] built from instances only (lists of [Link],
    [Item] and [Query] objects, a [Template] or [None], an [Error] or
    [None]) is always constructed, and holds exactly these objects, in
    the order given. *)
Theorem Collection_init_from_instances (href version : pyval)
    (links : list Link.t) (items : list Item.t) (queries : list Query.t)
    (template : option Template.t) (error : option Error.t) :
  Collection.__init__ href (Items (map Instance links))
    (Items (map Instance items)) (Items (map Instance queries))
    (given_or_None template) (given_or_None error) version =
  Ok (Collection.mk version href error template
        (Array.mk CItem "items" items) (Array.mk CLink "links" links)
        (Array.mk CQuery "queries" queries)).
Proof.
  unfold Collection.__init__, _from_iterable_to_array, Array.__init__.
  rewrite !build_items_instances.
  destruct template, error; reflexivity.
Qed.

(** X3. In a parsed collection the array fields are never [None]: [items],
    [links] and [queries], the [data] and [links] of every item, the
    [data] of every query and of the template are arrays of the right
    item class under the right name. *)
Theorem parsed_collection_has_arrays (loaded : result pyval)
    (M : Collection.t) :
  Collection.from_loaded loaded = Ok M ->
  array_of CItem "items" (Collection.items M) /\
  array_of CLink "links" (Collection.links M) /\
  array_of CQuery "queries" (Collection.queries M) /\
  (forall i, In i (Array.elems (Collection.items M)) ->
             array_of CData "data" (Item.data i) /\
             array_of CLink "links" (Item.links i)) /\
  (forall q, In q (Array.elems (Collection.queries M)) ->
             array_of CData "data" (Query.data q)) /\
  (forall t, Collection.template M = Some t ->
             array_of CData "data" (Template.data t)).
Proof.
  intros HM.
  assert (Hnew : exists kw, Collection.new kw = Ok M).
  { destruct loaded as [D|e]; [now apply from_loaded_constructed in HM|].
    unfold Collection.from_loaded in HM. simpl in HM.
    destruct e; discriminate. }
  destruct Hnew as (kw & Hnew).
  apply Collection_new_shaped in Hnew
    as (Hi & Hish & Hl & Hq & Hqsh & Ht).
  rewrite Forall_forall in Hish, Hqsh.
  split; [exact Hi|]. split; [exact Hl|]. split; [exact Hq|].
  split; [exact Hish|]. split; [exact Hqsh|].
  intros t Et. now rewrite Et in Ht.
Qed.

Lemma parsed_collection_has_arrays_witness :
  array_of CItem "items" (Collection.items sample_collection) /\
  array_of CLink "links" (Collection.links sample_collection) /\
  array_of CQuery "queries" (Collection.queries sample_collection).
Proof.
  destruct (@parsed_collection_has_arrays (Ok sample_document)
              sample_collection eq_refl) as (Hi & Hl & Hq & _).
  repeat split; assumption.
Defined.

(** X4. What a parsed collection holds for a key that is missing:
    [version] defaults to ["1.0"], a missing (or null) [links], [items]
    or [queries] gives the empty array, a missing (or null) [template] or
    [error] gives [None]; [href] and a given [version] are stored as they
    are. *)
Theorem Collection_defaults (kw : pydict) (c : Collection.t) :
  Collection.new kw = Ok c ->
  dict_get "href" kw = Some (Collection.href c) /\
  Collection.version c =
    match dict_get "version" kw with
    | Some v => v
    | None => PStr "1.0"
    end /\
  (optional "links" kw = PNone ->
   Collection.links c = Array.mk CLink "links" []) /\
  (optional "items" kw = PNone ->
   Collection.items c = Array.mk CItem "items" []) /\
  (optional "queries" kw = PNone ->
   Collection.queries c = Array.mk CQuery "queries" []) /\
  (optional "template" kw = PNone -> Collection.template c = None) /\
  (optional "error" kw = PNone -> Collection.error c = None).
Proof.
  unfold Collection.new, Collection.__init__. intros Hc.
  do 7 bind_inv Hc. injection Hc as <-. simpl.
  split.
  { unfold required in Hx0. destruct (dict_get "href" kw); [|discriminate].
    now injection Hx0 as <-. }
  split; [reflexivity|].
  repeat split; intros E; rewrite E in *.
  - now injection Hx4 as <-.
  - now injection Hx3 as <-.
  - now injection Hx5 as <-.
  - now injection Hx2 as <-.
  - now injection Hx1 as <-.
Qed.

Lemma Collection_defaults_witness :
  Collection.new [("href", PStr "/h")] =
    Ok (Collection.mk (PStr "1.0") (PStr "/h") None None
          (Array.mk CItem "items" []) (Array.mk CLink "links" [])
          (Array.mk CQuery "queries" [])).
Proof.
  destruct (Collection.new [("href", PStr "/h")]) as [c|e] eqn:Ec;
    [|discriminate].
  destruct (@Collection_defaults [("href", PStr "/h")] c Ec)
    as (Hh & Hv & Hl & Hi & Hq & Ht & He).
  destruct c as [ver h e t its ls qs]; simpl in *.
  injection Hh as <-.
  now rewrite Hv, (Hl eq_refl), (Hi eq_refl), (Hq eq_refl), (Ht eq_refl),
    (He eq_refl).
Defined.

Lemma check_keywords_known (callee : string) (params : list string)
    (kw : pydict) :
  existsb (String.eqb "self") params = false ->
  known_keys params kw = true -> check_keywords callee params kw = Ok tt.
Proof.
  unfold known_keys, check_keywords, unbindable. intros Hself.
  induction kw as [|[k v] kw IH]; simpl; [reflexivity|].
  intros Hkw. apply andb_true_iff in Hkw as [Hk Hkw].
  rewrite Hk. simpl.
  destruct (k =? "self")%string eqn:Ek; simpl; [|auto].
  apply String.eqb_eq in Ek. subst k. congruence.
Qed.

Lemma check_keywords_first (callee : string) (params : list string)
    (known rest : pydict) (k : string) (v : pyval) :
  existsb (String.eqb "self") params = false ->
  known_keys params known = true ->
  existsb (String.eqb k) params = false ->
  check_keywords callee params (known ++ (k, v) :: rest) =
    Raise (TypeError (if (k =? "self")%string
                      then MultipleValues callee "self"
                      else UnexpectedKeyword callee k)).
Proof.
  unfold known_keys, check_keywords, unbindable. intros Hself Hknown Hk.
  induction known as [|[k' v'] known IH]; simpl.
  - rewrite Hk, orb_true_r.
    destruct (k =? "self")%string eqn:Ek; [|reflexivity].
    apply String.eqb_eq in Ek. now subst k.
  - simpl in Hknown. apply andb_true_iff in Hknown as [Hk' Hknown].
    rewrite Hk'. simpl.
    destruct (k' =? "self")%string eqn:Ek'; simpl; [|auto].
    apply String.eqb_eq in Ek'. subst k'. congruence.
Qed.

(** X5. A document whose [collection] object has a key other than
    [href], [links], [items], [queries], [template], [error] and
    [version] is not parsed: [from_json] ends in the [TypeError] of the
    constructor call for the first such key, whatever follows it and
    whatever else the document holds.  For the key [self] that is the
    error of an argument given twice, for every other key the one of an
    unexpected keyword. *)
Theorem unknown_collection_key_is_TypeError (d known rest : pydict)
    (k : string) (v : pyval) :
  dict_get "collection" d = Some (PDict (known ++ (k, v) :: rest)) ->
  known_keys ["href"; "links"; "items"; "queries"; "template"; "error";
              "version"] known = true ->
  existsb (String.eqb k)
          ["href"; "links"; "items"; "queries"; "template"; "error";
           "version"] = false ->
  Collection.from_loaded (Ok (PDict d)) =
    Raise (TypeError (if (k =? "self")%string
                      then MultipleValues "Collection" "self"
                      else UnexpectedKeyword "Collection" k)).
Proof.
  intros Hd Hknown Hk.
  unfold Collection.from_loaded, py_get, optional, bind. rewrite Hd.
  assert (Htrue : truthy (PDict (known ++ (k, v) :: rest)) = true)
    by now destruct known.
  rewrite Htrue. simpl negb. cbv iota. unfold call_with, Collection.new.
  rewrite (@check_keywords_first "Collection"
             ["href"; "links"; "items"; "queries"; "template"; "error";
              "version"] known rest k v eq_refl Hknown Hk).
  reflexivity.
Qed.

Lemma unknown_collection_key_is_TypeError_witness :
  Collection.from_loaded
    (Ok (PDict [("collection",
                 PDict [("href", PStr "/h"); ("title", PStr "t");
                        ("self", PInt 1)])])) =
    Raise (TypeError (UnexpectedKeyword "Collection" "title")).
Proof.
  exact (@unknown_collection_key_is_TypeError
           [("collection", PDict [("href", PStr "/h"); ("title", PStr "t");
                                  ("self", PInt 1)])]
           [("href", PStr "/h")] [("self", PInt 1)] "title" (PStr "t")
           eq_refl eq_refl eq_refl).
Defined.

(** X6. A document whose [collection] object is not empty, has known
    keys only and no [href] ends in the [TypeError] for the missing
    argument, not in the [ValueError] for an invalid document. *)
Theorem missing_href_is_TypeError (d kw : pydict) :
  dict_get "collection" d = Some (PDict kw) ->
  kw <> [] ->
  known_keys ["href"; "links"; "items"; "queries"; "template"; "error";
              "version"] kw = true ->
  dict_get "href" kw = None ->
  Collection.from_loaded (Ok (PDict d)) =
    Raise (TypeError (MissingArgument "Collection" "href")).
Proof.
  intros Hd Hne Hkw Hhref.
  unfold Collection.from_loaded, py_get, optional, bind. rewrite Hd.
  destruct kw as [|kv kw]; [congruence|].
  simpl truthy. simpl negb. cbv iota. unfold call_with, Collection.new.
  rewrite (@check_keywords_known "Collection"
             ["href"; "links"; "items"; "queries"; "template"; "error";
              "version"] (kv :: kw) eq_refl Hkw).
  unfold bind, required. now rewrite Hhref.
Qed.

Lemma missing_href_is_TypeError_witness :
  Collection.from_loaded
    (Ok (PDict [("collection", PDict [("version", PStr "1.0")])])) =
    Raise (TypeError (MissingArgument "Collection" "href")).
Proof.
  apply (@missing_href_is_TypeError
           [("collection", PDict [("version", PStr "1.0")])]
           [("version", PStr "1.0")] eq_refl); [discriminate| |]; reflexivity.
Defined.

Lemma characters_head (c : ascii) (s : string) :
  exists rest, characters (String c s) = String c (continuation s) :: rest.
Proof.
  revert c. induction s as [|c' s IH]; intros c.
  - now exists [].
  - destruct (IH c') as (rest & Hrest).
    change (characters (String c (String c' s))) with
      (if is_continuation c'
       then match characters (String c' s) with
            | ch :: rest' => String c ch :: rest'
            | [] => [String c EmptyString]
            end
       else String c EmptyString :: characters (String c' s)).
    rewrite Hrest. simpl continuation.
    destruct (is_continuation c'); eauto.
Qed.

(** X7. What an array field makes of a value that is no list: [None],
    the empty object and the empty string give the empty array; a number
    or a boolean is not iterable ([TypeError]); a non-empty object or
    string is iterated, and its first key or its first character (with
    all the bytes of that character) is rejected with the [ValueError] of
    [_build_items]. *)
Theorem array_field_from_other_values {T : Type} `{Entity T} (name : string) :
  _from_iterable_to_array name (Values PNone) = Ok (Array.mk class_of name []) /\
  _from_iterable_to_array name (Values (PList [])) =
    Ok (Array.mk class_of name []) /\
  _from_iterable_to_array name (Values (PDict [])) =
    Ok (Array.mk class_of name []) /\
  _from_iterable_to_array name (Values (PStr "")) =
    Ok (Array.mk class_of name []) /\
  (forall b, _from_iterable_to_array (T := T) name (Values (PBool b)) =
             Raise (TypeError (NotIterable (PBool b)))) /\
  (forall n, _from_iterable_to_array (T := T) name (Values (PInt n)) =
             Raise (TypeError (NotIterable (PInt n)))) /\
  (forall k v d,
     _from_iterable_to_array (T := T) name (Values (PDict ((k, v) :: d))) =
       Raise (ValueError (InvalidValueFor (cls_name class_of) (PStr k)))) /\
  (forall c s,
     _from_iterable_to_array (T := T) name (Values (PStr (String c s))) =
       Raise (ValueError (InvalidValueFor (cls_name class_of)
                                          (PStr (String c (continuation s)))))).
Proof.
  do 7 (split; [reflexivity|]).
  intros c s. unfold _from_iterable_to_array, py_iter, bind.
  destruct (characters_head c s) as (rest & ->). reflexivity.
Qed.

(** X8. Of the arguments of [Collection], [error] is coerced first and
    [template] second: an [error] that is neither [None], an [Error] nor
    a dict ends in the [TypeError] naming it and [Error] whatever the
    other arguments are, and with no [error], such a [template] ends in
    the [TypeError] naming it and [Template]. *)
Theorem Collection_coerces_error_and_template (v href version : pyval)
    (links : iterable Link.t) (items : iterable Item.t)
    (queries : iterable Query.t) (template : argument Template.t) :
  is_None v = false ->
  is_dict v = false ->
  Collection.__init__ href links items queries template (Value v) version =
    Raise (TypeError (InvalidValueExpected v "Error")) /\
  Collection.__init__ href links items queries (Value v) (Value PNone)
                      version =
    Raise (TypeError (InvalidValueExpected v "Template")).
Proof.
  intros Hnone Hdict. unfold Collection.__init__, _from_dict_or_value.
  destruct v; try discriminate; split; reflexivity.
Qed.

Lemma Collection_coerces_error_and_template_witness :
  Collection.__init__ (PStr "/h") (Values PNone) (Items [Raw (PInt 5)])
                      (Values PNone) (Value PNone) (Value (PStr "oops"))
                      (PStr "1.0") =
    Raise (TypeError (InvalidValueExpected (PStr "oops") "Error")).
Proof.
  exact (proj1 (@Collection_coerces_error_and_template
                  (PStr "oops") (PStr "/h") (PStr "1.0") (Values PNone)
                  (Items [Raw (PInt 5)]) (Values PNone) (Value PNone)
                  eq_refl eq_refl)).
Defined.

(* ===================================================================== *)
(** ** Further properties: serialized forms and round trips *)
(* ===================================================================== *)

(** X9. Every [Data] is constructed again from its serialized form:
    [Data( **d.to_dict() )] is [d], whatever its fields hold. *)
Theorem Data_to_dict_round_trip (d : Data.t) :
  call_with Data.new (Data.to_dict d) = Ok d.
Proof. exact (Data_round_trip d). Qed.

(** X10. [Link.to_dict] always carries [href] and [rel] (also when they
    are [None]) and carries [name], [render] and [prompt], in this order,
    exactly when they are not [None]; every [Link] is constructed again
    from it. *)
Theorem Link_to_dict_round_trip (l : Link.t) :
  Link.to_dict l =
    PDict ([("href", Link.href l); ("rel", Link.rel l)] ++
           emitted (negb (is_None (Link.name l))) "name" (Link.name l) ++
           emitted (negb (is_None (Link.render l))) "render" (Link.render l) ++
           emitted (negb (is_None (Link.prompt l))) "prompt" (Link.prompt l)) /\
  call_with Link.new (Link.to_dict l) = Ok l.
Proof.
  split; [|exact (Link_round_trip l)].
  unfold Link.to_dict, Link.entries, emitted.
  destruct (is_None (Link.name l)), (is_None (Link.render l)),
    (is_None (Link.prompt l)); reflexivity.
Qed.

Lemma Query_init_shaped (href rel name prompt : pyval)
    (data : iterable Data.t) (q : Query.t) :
  Query.__init__ href rel name prompt data = Ok q ->
  Query_shaped q /\ Query.href q = href /\ Query.rel q = rel /\
  Query.name q = name /\ Query.prompt q = prompt.
Proof.
  unfold Query.__init__. intros Hq. bind_inv Hq. injection Hq as <-.
  split; [exact (from_iterable_shape _ _ Hx)|]. repeat split.
Qed.

(** X11. For a constructed [Query], [to_dict] carries [href] and [rel],
    then [name] and [prompt] when they are not [None], then [data] when
    the query has data fields; the query is constructed again from
    it. *)
Theorem Query_to_dict_round_trip (href rel name prompt : pyval)
    (data : iterable Data.t) (q : Query.t) :
  Query.__init__ href rel name prompt data = Ok q ->
  Query.to_dict q =
    PDict ([("href", href); ("rel", rel)] ++
           emitted (negb (is_None name)) "name" name ++
           emitted (negb (is_None prompt)) "prompt" prompt ++
           emitted (Array.__bool__ (Query.data q)) "data"
                   (PList (map Data.to_dict (Array.elems (Query.data q))))) /\
  call_with Query.new (Query.to_dict q) = Ok q.
Proof.
  intros Hq. apply Query_init_shaped in Hq as (Hs & <- & <- & <- & <-).
  split; [|exact (Query_round_trip Hs)].
  destruct q as [h r n p a]. unfold Query_shaped in Hs. simpl in *.
  apply array_of_eq in Hs. rewrite Hs.
  unfold Query.to_dict, Query.entries, Array.entries, Array.__bool__, emitted;
    simpl.
  destruct (is_None n), (is_None p), (Array.elems a); reflexivity.
Qed.

Lemma Query_to_dict_round_trip_witness :
  Query.to_dict search_query =
    PDict [("href", PStr "/q"); ("rel", PStr "search");
           ("data", PList [PDict [("name", PStr "q")]])] /\
  call_with Query.new (Query.to_dict search_query) = Ok search_query.
Proof.
  exact (@Query_to_dict_round_trip (PStr "/q") (PStr "search") PNone PNone
           (Values (PList [PDict [("name", PStr "q")]])) search_query
           eq_refl).
Defined.

Lemma Item_init_shaped (href : pyval) (data : iterable Data.t)
    (links : iterable Link.t) (i : Item.t) :
  Item.__init__ href data links = Ok i -> Item_shaped i /\ Item.href i = href.
Proof.
  unfold Item.__init__. intros Hi. bind_inv Hi. bind_inv Hi.
  injection Hi as <-.
  split; [|reflexivity].
  split; [exact (from_iterable_shape _ _ Hx)
         |exact (from_iterable_shape _ _ Hx0)].
Qed.

Lemma reparsed_field_same (v : pyval) :
  reparsed_field v = v <-> kept v = true.
Proof.
  split; [|apply reparsed_field_kept].
  unfold reparsed_field, kept. destruct (truthy v).
  - intros _. apply orb_true_r.
  - now intros <-.
Qed.

(** X12. For a constructed [Item], [to_dict] carries [href] when it is a
    true value, [data] and [links] when they are not empty, and nothing
    else (an item without any of them gives the empty dict).  The item
    constructed from it has the same data and links, and the same [href]
    exactly when that is [None] or a true value; a false [href] such as
    [""] comes back as [None]. *)
Theorem Item_to_dict_round_trip (href : pyval) (data : iterable Data.t)
    (links : iterable Link.t) (i : Item.t) :
  Item.__init__ href data links = Ok i ->
  Item.to_dict i =
    PDict (emitted (truthy href) "href" href ++
           emitted (Array.__bool__ (Item.data i)) "data"
                   (PList (map Data.to_dict (Array.elems (Item.data i)))) ++
           emitted (Array.__bool__ (Item.links i)) "links"
                   (PList (map Link.to_dict (Array.elems (Item.links i))))) /\
  call_with Item.new (Item.to_dict i) =
    Ok (Item.mk (if truthy href then href else PNone)
                (Item.data i) (Item.links i)) /\
  (call_with Item.new (Item.to_dict i) = Ok i <->
   is_None href || truthy href = true).
Proof.
  intros Hi. apply Item_init_shaped in Hi as (Hs & <-).
  pose proof (Item_round_trip Hs) as Hround.
  split; [|split; [exact Hround|]].
  - destruct i as [h a l]. destruct Hs as [Ha Hl]. simpl in *.
    apply array_of_eq in Ha, Hl. rewrite Ha, Hl.
    unfold Item.to_dict, Item.entries, Array.entries, Array.__bool__, emitted;
      simpl.
    destruct (truthy h), (Array.elems a), (Array.elems l); reflexivity.
  - unfold call_with, Item.to_dict. rewrite Hround.
    destruct i as [h a l]. unfold Item_reparsed. simpl. split.
    + intros [= Hh]. now apply reparsed_field_same.
    + intros Hh. apply reparsed_field_same in Hh. now rewrite Hh.
Qed.

Lemma Item_to_dict_round_trip_witness :
  Item.to_dict empty_href_item =
    PDict [("data", PList [PDict [("name", PStr "note");
                                  ("value", PStr "hi")]])] /\
  call_with Item.new (Item.to_dict empty_href_item) = Ok note_item.
Proof.
  destruct (@Item_to_dict_round_trip (PStr "")
              (Values (PList [PDict [("name", PStr "note");
                                     ("value", PStr "hi")]]))
              (Values PNone) empty_href_item eq_refl)
    as (Hdict & Hnew & _).
  split; [exact Hdict|exact Hnew].
Defined.

(** X13. An [Error] constructed from what [to_dict] puts under [error]
    has every true field unchanged and every other field [None]; it is
    the same error exactly when each of [code], [message] and [title] is
    [None] or a true value. *)
Theorem Error_to_dict_round_trip (e : Error.t) :
  key_of (Error.to_dict e) "error" = Some (PDict (Error.fields e)) /\
  Error.new (Error.fields e) =
    Ok (Error.mk (if truthy (Error.code e) then Error.code e else PNone)
                 (if truthy (Error.message e) then Error.message e else PNone)
                 (if truthy (Error.title e) then Error.title e else PNone)) /\
  (Error.new (Error.fields e) = Ok e <-> Error_kept e = true).
Proof.
  split; [reflexivity|]. split; [exact (Error_round_trip e)|].
  rewrite Error_round_trip. split.
  - destruct e as [c m t]. unfold Error_reparsed, Error_kept. simpl.
    intros [= Hc Hm Ht].
    now rewrite (proj1 (reparsed_field_same c) Hc),
      (proj1 (reparsed_field_same m) Hm), (proj1 (reparsed_field_same t) Ht).
  - intros He. now rewrite Error_reparsed_kept.
Qed.

Lemma Template_init_shaped (data : iterable Data.t) (t : Template.t) :
  Template.__init__ data = Ok t -> Template_shaped t.
Proof.
  unfold Template.__init__. intros Ht. bind_inv Ht. injection Ht as <-.
  exact (from_iterable_shape _ _ Hx).
Qed.

(** X14. A constructed [Template] always comes back from its own
    document: [to_dict] gives [{"template": {"data": [...]}}], also with
    no data field, and [Template.from_json] on it gives the template. *)
Theorem Template_to_dict_round_trip (data : iterable Data.t)
    (t : Template.t) :
  Template.__init__ data = Ok t ->
  Template.to_dict t =
    PDict [("template",
            PDict [("data",
                    PList (map Data.to_dict
                               (Array.elems (Template.data t))))])] /\
  Template.from_loaded (Ok (Template.to_dict t)) = Ok t.
Proof.
  intros Ht. apply Template_init_shaped in Ht.
  pose proof (Template_round_trip Ht) as Hround.
  destruct t as [a]. unfold Template_shaped in Ht. simpl in *.
  apply array_of_eq in Ht. rewrite Ht in *.
  split; [reflexivity|].
  unfold Template.from_loaded, Template.to_dict, Template.entries,
    Array.to_dict, Array.entries in *. simpl in *. exact Hround.
Qed.

Lemma Template_to_dict_round_trip_witness :
  Template.to_dict (Template.mk (Array.mk CData "data" [])) =
    PDict [("template", PDict [("data", PList [])])] /\
  Template.from_loaded
    (Ok (Template.to_dict (Template.mk (Array.mk CData "data" [])))) =
    Ok (Template.mk (Array.mk CData "data" [])).
Proof.
  exact (@Template_to_dict_round_trip (Values PNone)
           (Template.mk (Array.mk CData "data" [])) eq_refl).
Defined.

Lemma truthy_reparsed_field (v : pyval) :
  truthy (reparsed_field v) = truthy v.
Proof. unfold reparsed_field. now destruct (truthy v) eqn:E. Qed.

Lemma reparsed_field_emitted (k : string) (v : pyval) :
  emitted (truthy (reparsed_field v)) k (reparsed_field v) =
    emitted (truthy v) k v.
Proof.
  rewrite truthy_reparsed_field. unfold reparsed_field, emitted.
  now destruct (truthy v).
Qed.

Lemma Item_reparsed_to_dict (i : Item.t) :
  Item.to_dict (Item_reparsed i) = Item.to_dict i.
Proof.
  destruct i as [h a l]. unfold Item.to_dict, Item.entries, Item_reparsed.
  simpl. rewrite truthy_reparsed_field. unfold reparsed_field.
  now destruct (truthy h).
Qed.

Lemma Error_reparsed_fields (e : Error.t) :
  Error.fields (Error_reparsed e) = Error.fields e.
Proof.
  rewrite !Error_fields_shape. destruct e as [c m t].
  unfold Error_reparsed. simpl. now rewrite !reparsed_field_emitted.
Qed.

Lemma Collection_reparsed_to_dict (c : Collection.t) :
  Collection.to_dict (Collection_reparsed c) = Collection.to_dict c.
Proof.
  destruct c as [ver h e t [ic cn its] ls qs].
  assert (Hbool : Array.__bool__ (Array.mk ic cn (map Item_reparsed its)) =
                  Array.__bool__ (Array.mk ic cn its)).
  { unfold Array.__bool__. simpl. now destruct its. }
  assert (Hentries : Array.entries (Array.mk ic cn (map Item_reparsed its)) =
                     Array.entries (Array.mk ic cn its)).
  { unfold Array.entries. simpl. rewrite map_map.
    do 3 f_equal. apply map_ext. exact Item_reparsed_to_dict. }
  unfold Collection.to_dict, Collection.entries, Collection.fields,
    Collection_reparsed.
  cbn [Collection.version Collection.href Collection.links Collection.items
       Collection.queries Collection.template Collection.error
       Array.item_class Array.collection_name Array.elems].
  rewrite Hbool, Hentries.
  destruct e as [e|]; [|reflexivity].
  cbn [option_map]. unfold Error.entries.
  now rewrite Error_reparsed_fields.
Qed.

Lemma kept_reparsed_field (v : pyval) : kept (reparsed_field v) = true.
Proof.
  unfold kept, reparsed_field. destruct (truthy v) eqn:E; [|reflexivity].
  rewrite E. apply orb_true_r.
Qed.

Lemma Collection_reparsed_is_kept (c : Collection.t) :
  Collection_kept (Collection_reparsed c) = true.
Proof.
  destruct c as [ver h e t [ic cn its] ls qs].
  unfold Collection_kept, Collection_reparsed; simpl.
  apply andb_true_iff. split.
  - apply forallb_forall. intros i Hi. apply in_map_iff in Hi as (j & <- & _).
    unfold Item_kept, Item_reparsed. simpl. apply kept_reparsed_field.
  - destruct e as [e|]; simpl; [|reflexivity].
    unfold Error_kept, Error_reparsed. simpl.
    now rewrite !kept_reparsed_field.
Qed.

(** X15. One round trip settles a document: when [D] parses into [M],
    the serialized form of [M] parses into a model [M'] with the same
    serialized form as [M], and [M'] is what its own serialized form
    parses into.  What a round trip loses, it loses the first time. *)
Theorem round_trip_is_stable (D : pyval) (M : Collection.t) :
  Collection.from_loaded (Ok D) = Ok M ->
  exists M',
    Collection.from_loaded (Ok (Collection.to_dict M)) = Ok M' /\
    Collection.to_dict M' = Collection.to_dict M /\
    Collection.from_loaded (Ok (Collection.to_dict M')) = Ok M'.
Proof.
  intros HM. exists (Collection_reparsed M).
  pose proof (round_trip_reparsed _ HM) as Hfirst.
  split; [exact Hfirst|]. split; [apply Collection_reparsed_to_dict|].
  now rewrite Collection_reparsed_to_dict.
Qed.

Lemma round_trip_is_stable_witness :
  Collection.from_loaded (Ok (Collection.to_dict empty_code_collection)) =
    Ok no_code_collection /\
  Collection.to_dict no_code_collection =
    Collection.to_dict empty_code_collection /\
  Collection.from_loaded (Ok (Collection.to_dict no_code_collection)) =
    Ok no_code_collection.
Proof.
  destruct (@round_trip_is_stable empty_code_document empty_code_collection
              eq_refl) as (M' & Hfirst & Hsame & Hsecond).
  assert (HM' : M' = no_code_collection).
  { assert (Hcomputed :
              Collection.from_loaded
                (Ok (Collection.to_dict empty_code_collection)) =
                Ok no_code_collection) by reflexivity.
    rewrite Hcomputed in Hfirst. now injection Hfirst as <-. }
  subst M'. repeat split; assumption.
Defined.

(** X16. Two parses of a document are equal under [==]: a parsed
    collection (of a document in which no dict repeats a key) is equal
    to itself field by field, without being compared by identity. *)
Theorem parsed_collection_equals_itself (D : pyval) (M : Collection.t) :
  unique_keys D = true ->
  Collection.from_loaded (Ok D) = Ok M ->
  Collection.__eq__ M M = true.
Proof.
  intros HD HM. apply Collection_eq_refl. exact (from_loaded_unique _ HD HM).
Qed.

Lemma parsed_collection_equals_itself_witness :
  Collection.__eq__ sample_collection sample_collection = true.
Proof.
  exact (@parsed_collection_equals_itself sample_document sample_collection
           eq_refl eq_refl).
Defined.

Lemma cls_eqb_eq (a b : cls) : cls_eqb a b = true <-> a = b.
Proof.
  split; [|intros <-; unfold cls_eqb; apply String.eqb_refl].
  destruct a, b; unfold cls_eqb; simpl; intros E;
    try reflexivity; discriminate.
Qed.

(** X17. Two arrays are equal under [==] exactly when they have the same
    item class, the same name and equal elements position by position:
    an empty [links] array is not equal to an empty [items] array. *)
Theorem Array_eq_iff {T : Type} `{Entity T} (a b : Array.t T) :
  Array.__eq__ a b = true <->
  Array.item_class a = Array.item_class b /\
  Array.collection_name a = Array.collection_name b /\
  Forall2 (fun x y => equal x y = true) (Array.elems a) (Array.elems b).
Proof.
  destruct a as [ca na xs], b as [cb nb ys]. unfold Array.__eq__; simpl.
  rewrite !andb_true_iff, cls_eqb_eq, String.eqb_eq.
  assert (Hall : forall l1 l2,
            (fix all2 (l1 l2 : list T) {struct l1} : bool :=
               match l1, l2 with
               | [], [] => true
               | x :: l1', y :: l2' => equal x y && all2 l1' l2'
               | _, _ => false
               end) l1 l2 = true <->
            Forall2 (fun x y => equal x y = true) l1 l2).
  { induction l1 as [|x l1 IH]; intros [|y l2]; simpl.
    - split; [constructor|reflexivity].
    - split; [discriminate|intros Hf; inversion Hf].
    - split; [discriminate|intros Hf; inversion Hf].
    - rewrite andb_true_iff, IH. split.
      + intros [Hxy Hrest]. now constructor.
      + intros Hf. inversion Hf; subst. now split. }
  rewrite Hall. tauto.
Qed.

(* ===================================================================== *)
(** ** Further properties: lookup *)
(* ===================================================================== *)

(** A criterion that is given and that no element meets leaves nothing
    to find. *)
Lemma find_unmet {T : Type} `{Named T} (a : Array.t T) (name rel : pyval) :
  (forall x, In x (Array.elems a) ->
             (negb (is_None name) && negb (attribute_eqb (attr_name x) name))
             || (negb (is_None rel) && negb (attribute_eqb (attr_rel x) rel))
             = true) ->
  Array.find a name rel = [] /\
  Array.get a name rel = Raise (ValueError (Msg "No matching item found.")).
Proof.
  intros Hunmet.
  assert (Hfind : Array.find a name rel = []).
  { unfold Array.find, Array._matches. apply filter_nil_iff.
    intros x Hx. specialize (Hunmet x Hx). unfold Array.yields.
    destruct (is_None name), (is_None rel),
      (attribute_eqb (attr_name x) name), (attribute_eqb (attr_rel x) rel);
      simpl in *; congruence. }
  split; [exact Hfind|].
  unfold Array.get. unfold Array.find in Hfind. now rewrite Hfind.
Qed.

(** What an [Item] shows as its [name] or [rel] is [None], a [Data] or a
    list of several [Data]: it equals no other value than [None]. *)
Lemma Item_attribute_eqb (i : Item.t) (attr : string) (v : pyval) :
  attribute_eqb (getattr_or_None (Item.getattr i attr)) v = true ->
  v = PNone.
Proof.
  unfold Item.getattr, Item.__getattr__, Array.getattr.
  destruct (existsb (String.eqb attr) Item.members); [discriminate|].
  destruct (existsb (String.eqb attr) Array.members); [discriminate|].
  unfold Array.__getattr__.
  destruct (Array.find (Item.data i) (PStr attr) PNone) as [|x [|y rest]];
    simpl; try discriminate.
  apply py_eqb_None.
Qed.

(** X18. In an array of items, such as [collection.items], no item
    matches a [name] or [rel] that is given (as a JSON value): [find]
    is empty and [get] raises its [ValueError], also when an item has a
    data field of that name. *)
Theorem items_match_no_given_criterion (a : Array.t Item.t)
    (name rel : pyval) :
  is_None name && is_None rel = false ->
  Array.find a name rel = [] /\
  Array.get a name rel = Raise (ValueError (Msg "No matching item found.")).
Proof.
  intros Hgiven. apply find_unmet. intros i _.
  change (attr_name i) with (getattr_or_None (Item.getattr i "name")).
  change (attr_rel i) with (getattr_or_None (Item.getattr i "rel")).
  destruct (attribute_eqb (getattr_or_None (Item.getattr i "name")) name)
    eqn:En;
    [apply Item_attribute_eqb in En; subst name|].
  - destruct (attribute_eqb (getattr_or_None (Item.getattr i "rel")) rel)
      eqn:Er;
      [apply Item_attribute_eqb in Er; subst rel; discriminate|].
    simpl in Hgiven. now rewrite Hgiven.
  - destruct (is_None name) eqn:E; simpl; [|reflexivity].
    simpl in Hgiven. rewrite Hgiven. simpl.
    destruct (attribute_eqb (getattr_or_None (Item.getattr i "rel")) rel)
      eqn:Er; [|reflexivity].
    apply Item_attribute_eqb in Er. subst rel. discriminate.
Qed.

Lemma items_match_no_given_criterion_witness :
  Array.get (Collection.items sample_collection) (PStr "n") PNone =
    Raise (ValueError (Msg "No matching item found.")).
Proof.
  exact (proj2 (@items_match_no_given_criterion
                  (Collection.items sample_collection) (PStr "n") PNone
                  eq_refl)).
Defined.

(** X19. A [Data] has no [rel]: in an array of data fields a search with
    [rel] given finds nothing, whatever [name] is. *)
Theorem data_match_no_given_rel (a : Array.t Data.t) (name rel : pyval) :
  is_None rel = false ->
  Array.find a name rel = [] /\
  Array.get a name rel = Raise (ValueError (Msg "No matching item found.")).
Proof.
  intros Hrel. apply find_unmet. intros d _.
  destruct rel; try discriminate Hrel; simpl; apply orb_true_r.
Qed.

Lemma data_match_no_given_rel_witness :
  Array.find (Template.data note_template) (PStr "note") (PStr "x") = [].
Proof.
  exact (proj1 (@data_match_no_given_rel (Template.data note_template)
                  (PStr "note") (PStr "x") eq_refl)).
Defined.

(** X20. Attribute lookup on an array and [get(name=...)] agree on
    every name the array does not itself have: when the lookup gives a
    single element, that is the only match and [get] gives it; when it
    gives a list, that list is [find(name=...)], has at least two
    elements, and [get] gives its first.  On a name the array has
    ([find], [count], ...) the lookup gives the array's own attribute,
    whatever [get] does.  So the lookup raises [AttributeError] exactly
    when the name is not the array's own and [get] raises its
    [ValueError]. *)
Theorem getattr_agrees_with_get {T : Type} `{Named T} (a : Array.t T)
    (attr : string) :
  match Array.getattr a attr with
  | Ok (One x) =>
      unknown_on_array attr = true /\
      Array.find a (PStr attr) PNone = [x] /\
      Array.get a (PStr attr) PNone = Ok x
  | Ok (Many l) =>
      unknown_on_array attr = true /\
      exists x y rest,
        l = x :: y :: rest /\ Array.find a (PStr attr) PNone = l /\
        Array.get a (PStr attr) PNone = Ok x
  | Ok (Member n) => n = attr /\ unknown_on_array attr = false
  | Raise e =>
      unknown_on_array attr = true /\
      e = AttributeError NoMessage /\
      Array.find a (PStr attr) PNone = [] /\
      Array.get a (PStr attr) PNone =
        Raise (ValueError (Msg "No matching item found."))
  end /\
  (is_AttributeError (Array.getattr a attr) = true <->
   unknown_on_array attr = true /\
   is_ValueError (Array.get a (PStr attr) PNone) = true).
Proof.
  destruct (unknown_on_array attr) eqn:Ea.
  - rewrite (getattr_unknown a attr Ea).
    unfold Array.__getattr__, Array.get, Array.find, Array.next.
    destruct (Array._matches a (PStr attr) PNone) as [|x [|y rest]]; simpl.
    + repeat split.
    + repeat split; intros; try discriminate; tauto.
    + split.
      * split; [reflexivity|]. exists x, y, rest. repeat split.
      * split; [discriminate|]. now intros [_ ?].
  - rewrite (getattr_known a attr Ea). simpl.
    repeat split; intros; try discriminate; tauto.
Qed.

Lemma py_eqb_PStr (u : pyval) (s : string) :
  py_eqb u (PStr s) = true <-> u = PStr s.
Proof.
  destruct u; simpl; split; try discriminate.
  - intros E. apply String.eqb_eq in E. now subst.
  - intros [= ->]. apply String.eqb_refl.
Qed.

Lemma find_data_by_name (a : Array.t Data.t) (attr : string) :
  Array.find a (PStr attr) PNone =
    filter (fun d => py_eqb (Data.name d) (PStr attr)) (Array.elems a).
Proof.
  unfold Array.find, Array._matches. apply filter_ext. intros d.
  unfold Array.yields. simpl.
  now destruct (py_eqb (Data.name d) (PStr attr)).
Qed.

Lemma data_hook_succeeds (a : Array.t Data.t) (attr : string) :
  In (PStr attr) (map Data.name (Array.elems a)) <->
  exists r, Array.__getattr__ a attr = Ok r.
Proof.
  unfold Array.__getattr__. rewrite find_data_by_name.
  split.
  - intros Hin. apply in_map_iff in Hin as (d & Hd & Hin).
    assert (Hf : In d (filter (fun d => py_eqb (Data.name d) (PStr attr))
                              (Array.elems a))).
    { apply filter_In. split; [exact Hin|]. now apply py_eqb_PStr. }
    destruct (filter _ (Array.elems a)) as [|x [|y rest]]; [destruct Hf| |];
      eauto.
  - intros (r & Hr).
    destruct (filter (fun d => py_eqb (Data.name d) (PStr attr))
                     (Array.elems a)) as [|x rest] eqn:Ef; [discriminate|].
    assert (Hx : In x (filter (fun d => py_eqb (Data.name d) (PStr attr))
                              (Array.elems a)))
      by (rewrite Ef; now left).
    apply filter_In in Hx as [Hin Hname]. apply py_eqb_PStr in Hname.
    apply in_map_iff. now exists x.
Qed.

Lemma data_hook_fields (a : Array.t Data.t) (attr : string)
    (r : lookup Data.t) :
  Array.__getattr__ a attr = Ok r -> fields_named a attr r.
Proof.
  unfold Array.__getattr__. rewrite find_data_by_name.
  assert (Hall : forall d,
            In d (filter (fun d => py_eqb (Data.name d) (PStr attr))
                         (Array.elems a)) ->
            In d (Array.elems a) /\ Data.name d = PStr attr).
  { intros d Hd. apply filter_In in Hd as [Hin Hname].
    split; [exact Hin|]. now apply py_eqb_PStr. }
  destruct (filter _ (Array.elems a)) as [|x [|y rest]];
    [discriminate| |]; intros [= <-]; simpl.
  - apply Hall. now left.
  - exact Hall.
Qed.

Lemma data_lookup_succeeds (a : Array.t Data.t) (attr : string) :
  (exists r, Array.getattr a attr = Ok r) <->
  unknown_on_array attr = false \/
  In (PStr attr) (map Data.name (Array.elems a)).
Proof.
  destruct (unknown_on_array attr) eqn:Ea.
  - rewrite (getattr_unknown a attr Ea), data_hook_succeeds.
    split; [now right|]. now intros [?|?].
  - rewrite (getattr_known a attr Ea). split; [now left|eauto].
Qed.

(** X21. [properties] holds the names that can be looked up on an item
    or a template besides the attributes the object and its data array
    have of their own: the lookup of a name succeeds exactly when the
    object itself has the name ([href], [data], [to_dict], ...), or the
    array has it ([find], [count], ...), or [properties] holds it.  For
    a name neither of them has, what the lookup gives is the data field
    of that name, or the list of the data fields of that name. *)
Theorem properties_can_be_looked_up (i : Item.t) (t : Template.t)
    (attr : string) :
  ((exists r, Item.getattr i attr = Ok r) <->
   unknown_on_item attr = false \/ unknown_on_array attr = false \/
   In (PStr attr) (Item.properties i)) /\
  ((exists r, Template.getattr t attr = Ok r) <->
   unknown_on_template attr = false \/ unknown_on_array attr = false \/
   In (PStr attr) (Template.properties t)) /\
  (forall r, unknown_on_item attr = true -> unknown_on_array attr = true ->
             Item.getattr i attr = Ok r ->
             fields_named (Item.data i) attr r) /\
  (forall r, unknown_on_template attr = true -> unknown_on_array attr = true ->
             Template.getattr t attr = Ok r ->
             fields_named (Template.data t) attr r).
Proof.
  split; [|split; [|split]].
  - destruct (unknown_on_item attr) eqn:Ei.
    + rewrite (Item_getattr_unknown i attr Ei), data_lookup_succeeds.
      unfold Item.properties. split; [now right|]. now intros [?|?].
    + unfold unknown_on_item in Ei. apply negb_false_iff in Ei.
      unfold Item.getattr. rewrite Ei. split; [now left|eauto].
  - destruct (unknown_on_template attr) eqn:Et.
    + rewrite (Template_getattr_unknown t attr Et), data_lookup_succeeds.
      unfold Template.properties. split; [now right|]. now intros [?|?].
    + unfold unknown_on_template in Et. apply negb_false_iff in Et.
      unfold Template.getattr. rewrite Et. split; [now left|eauto].
  - intros r Hi Ha. rewrite (Item_getattr_unknown i attr Hi).
    rewrite (getattr_unknown (Item.data i) attr Ha).
    apply data_hook_fields.
  - intros r Ht Ha. rewrite (Template_getattr_unknown t attr Ht).
    rewrite (getattr_unknown (Template.data t) attr Ha).
    apply data_hook_fields.
Qed.

(** On [Item(data=[{"name": "note", "value": "hi"}])] the name [note]
    is looked up because [properties] holds it; on [Item()], whose
    [properties] is empty, [href] is looked up all the same. *)
Lemma properties_can_be_looked_up_witness :
  Item.properties note_item = [PStr "note"] /\
  (exists r, Item.getattr note_item "note" = Ok r) /\
  Item.properties bare_item = [] /\
  (exists r, Item.getattr bare_item "href" = Ok r).
Proof.
  split; [reflexivity|]. split.
  - apply (proj1 (@properties_can_be_looked_up note_item note_template
                    "note")).
    right. right. now left.
  - split; [reflexivity|].
    apply (proj1 (@properties_can_be_looked_up bare_item note_template
                    "href")).
    now left.
Defined.

(** X22. What [from_json] raises on a document that is a JSON object:
    the [ValueError] for an invalid document, a [TypeError], or the
    [ValueError] of [_build_items] naming a class and a value; never an
    [AttributeError]. *)
Theorem object_document_errors (d : pydict) (e : exn) :
  Collection.from_loaded (Ok (PDict d)) = Raise e ->
  e = ValueError (Msg "Not a valid Collection+JSON document.") \/
  (exists m, e = TypeError m) \/
  (exists c v, e = ValueError (InvalidValueFor c v)).
Proof.
  unfold Collection.from_loaded, py_get, bind.
  destruct (truthy (optional "collection" d)); simpl.
  - intros He.
    apply (@call_with_raises _ Collection.new _ _ Collection_new_raises) in He.
    destruct e as [m|m|m|]; try destruct He.
    + destruct m; try destruct He. right. right. eauto.
    + right. left. eauto.
  - intros [= <-]. now left.
Qed.

Lemma object_document_errors_witness :
  Collection.from_loaded
    (Ok (PDict [("collection",
                 PDict [("href", PStr "/h"); ("items", PList [PInt 5])])])) =
    Raise (ValueError (InvalidValueFor "Item" (PInt 5))) /\
  (ValueError (InvalidValueFor "Item" (PInt 5)) =
     ValueError (Msg "Not a valid Collection+JSON document.") \/
   (exists m, ValueError (InvalidValueFor "Item" (PInt 5)) = TypeError m) \/
   (exists c v, ValueError (InvalidValueFor "Item" (PInt 5)) =
                  ValueError (InvalidValueFor c v))).
Proof.
  split; [reflexivity|].
  exact (@object_document_errors
           [("collection",
             PDict [("href", PStr "/h"); ("items", PList [PInt 5])])]
           (ValueError (InvalidValueFor "Item" (PInt 5))) eq_refl).
Defined.

(** X23. The two parsers do not read each other's documents: what
    [Collection.to_dict] gives, also with a template in it, is rejected
    by [Template.from_json] with its [ValueError]; what
    [Template.to_dict] or [Error.to_dict] gives is rejected by
    [Collection.from_json] with its own, and an error document is no
    template document either. *)
Theorem documents_of_another_kind_are_rejected (c : Collection.t)
    (t : Template.t) (e : Error.t) :
  Template.from_loaded (Ok (Collection.to_dict c)) =
    Raise (ValueError (Msg "Not valid Collection+JSON template data.")) /\
  Collection.from_loaded (Ok (Template.to_dict t)) =
    Raise (ValueError (Msg "Not a valid Collection+JSON document.")) /\
  Collection.from_loaded (Ok (Error.to_dict e)) =
    Raise (ValueError (Msg "Not a valid Collection+JSON document.")) /\
  Template.from_loaded (Ok (Error.to_dict e)) =
    Raise (ValueError (Msg "Not valid Collection+JSON template data.")).
Proof. repeat split. Qed.
